(** * Konsole theme switcher

    A shallow embedding of [konsole/konsole-theme-switcher.py]: the mode
    resolver, target discovery, the profile applicator, the reconciliation
    loop and the debounced watcher, together with the properties the
    specification states about them.

    Conventions of the embedding.
    - Text is a Rocq [string]; the Python string methods below are given on
      the ASCII range (a character above 127 is neither whitespace, nor a
      digit, nor changed by [lower]).
    - [subprocess.run] is answered by the environment: every call that is
      launched yields a [CompletedProcess] (exit status and captured
      standard output) that may depend on everything that happened before.
      With [check=True] a non-zero status raises [CalledProcessError].
      An [Env] is a host on which every program starts and prints text
      that decodes. A [Host.t] is any host: there a program may also fail
      to start ([OSError]) or print bytes that are no text
      ([UnicodeDecodeError]), and the functions that query the desktop and
      list the processes are given on it as well, with the exceptions
      that their handlers let through.
    - Everything the script does to the outside world is appended to a
      trace: the commands it runs with their answers, and the lines it
      prints.
    - Readings of [time.monotonic()] are exact rationals. *)

From Stdlib Require Import String Ascii List ZArith QArith Bool Lia Lqa.
From Stdlib Require Import DecimalString DecimalPos DecimalZ.
Import ListNotations.

Local Open Scope string_scope.
Local Open Scope list_scope.

(** ** Python builtins used by the script *)

Module Py.

(** [str.isspace] on one ASCII character: tab, line feed, vertical tab,
    form feed, carriage return, the four separators 28..31 and space. *)
Definition is_space (c : ascii) : bool :=
  let n := N_of_ascii c in
  ((9 <=? n) && (n <=? 13) || (28 <=? n) && (n <=? 32))%N.

(** The whitespace [int] skips in ASCII text: the C locale's six, without
    the separators 28..31. *)
Definition is_c_space (c : ascii) : bool :=
  let n := N_of_ascii c in
  ((9 <=? n) && (n <=? 13) || (n =? 32))%N.

Fixpoint lstrip_by (space : ascii -> bool) (s : string) : string :=
  match s with
  | EmptyString => EmptyString
  | String c t => if space c then lstrip_by space t else s
  end.

Fixpoint rstrip_by (space : ascii -> bool) (s : string) : string :=
  match s with
  | EmptyString => EmptyString
  | String c t =>
      match rstrip_by space t with
      | EmptyString => if space c then EmptyString else String c EmptyString
      | r => String c r
      end
  end.

(** [s.strip()] *)
Definition strip (s : string) : string :=
  rstrip_by is_space (lstrip_by is_space s).

Definition lower_char (c : ascii) : ascii :=
  let n := N_of_ascii c in
  if ((65 <=? n) && (n <=? 90))%N then ascii_of_N (n + 32) else c.

(** [s.lower()] *)
Fixpoint lower (s : string) : string :=
  match s with
  | EmptyString => EmptyString
  | String c t => String (lower_char c) (lower t)
  end.

(** [s.startswith(p)] *)
Definition startswith (s p : string) : bool := String.prefix p s.

(** [needle in hay] on strings: [needle] starts at some position of [hay]. *)
Fixpoint contains (needle hay : string) : bool :=
  String.prefix needle hay ||
  match hay with
  | EmptyString => false
  | String _ t => contains needle t
  end.

(** [s.split("\n")]: the pieces between line feeds, empty pieces kept. *)
Fixpoint split_lines (s : string) : list string :=
  match s with
  | EmptyString => [EmptyString]
  | String c t =>
      if Ascii.eqb c "010"%char then EmptyString :: split_lines t
      else match split_lines t with
           | piece :: rest => String c piece :: rest
           | [] => [String c EmptyString]
           end
  end.

Definition digit_value (c : ascii) : option Z :=
  let n := N_of_ascii c in
  if ((48 <=? n) && (n <=? 57))%N then Some (Z.of_N n - 48)%Z else None.

(** Decimal digits with single underscores between them; [after_digit]
    tells whether the previous character was a digit. *)
Fixpoint int_digits (acc : Z) (after_digit : bool) (s : string) : option Z :=
  match s with
  | EmptyString => if after_digit then Some acc else None
  | String c t =>
      match digit_value c with
      | Some d => int_digits (10 * acc + d)%Z true t
      | None =>
          if Ascii.eqb c "_"%char && after_digit
          then int_digits acc false t
          else None
      end
  end.

(** [int(s)] in base ten: surrounding whitespace is dropped, one sign is
    allowed; [None] stands for [ValueError]. The bound recent versions put
    on the number of digits is left out. *)
Definition int (s : string) : option Z :=
  match rstrip_by is_c_space (lstrip_by is_c_space s) with
  | String "-" t => option_map Z.opp (int_digits 0 false t)
  | String "+" t => int_digits 0 false t
  | t => int_digits 0 false t
  end.

(** [str(n)] for an integer, as an f-string renders it. *)
Definition str_of_int (z : Z) : string := NilZero.string_of_int (Z.to_int z).

Definition str_of_nat (n : nat) : string := NilZero.string_of_uint (Nat.to_uint n).

(** [any(f(x) for x in xs)] *)
Definition any {A : Type} (f : A -> bool) (xs : list A) : bool := existsb f xs.

End Py.

(** ** The outside world *)

(** What [subprocess.run] hands back for a command that ran. *)
Record CompletedProcess := { returncode : Z; stdout : string }.

(** What the script does to the outside world, in order. *)
Inductive effect :=
| Run (argv : list string) (res : CompletedProcess)
| Print (line : string).

Definition trace := list effect.

(** The exceptions that occur: the two the script names in its handlers,
    and the two that [subprocess.run] raises besides. [UnicodeDecodeError]
    is a [ValueError] in Python's hierarchy; [OSError] stands for
    [FileNotFoundError] and the other errors of starting a program. *)
Inductive exn :=
| CalledProcessError (cmd : list string) (status : Z)
| ValueError
| UnicodeDecodeError
| OSError.

(** The environment: the answer to each command, which may depend on the
    whole history; the user's home directory ([str(Path.home())]); and the
    text Python renders for [str(e)] of an exception. *)
Record Env := {
  respond : trace -> list string -> CompletedProcess;
  home : string;
  error_text : exn -> string
}.

Inductive outcome (A : Type) :=
| Ok (a : A)
| Raise (e : exn).
Arguments Ok {A} a.
Arguments Raise {A} e.

(** A computation reads the history so far and extends it. *)
Definition M (A : Type) : Type := trace -> outcome A * trace.

Definition ret {A : Type} (a : A) : M A := fun tr => (Ok a, tr).

Definition bind {A B : Type} (m : M A) (k : A -> M B) : M B :=
  fun tr =>
    match m tr with
    | (Ok a, tr') => k a tr'
    | (Raise e, tr') => (Raise e, tr')
    end.

Definition raise {A : Type} (e : exn) : M A := fun tr => (Raise e, tr).

(** [try: m  except <handles>: h] *)
Definition try_except {A : Type} (m : M A) (handles : exn -> bool)
    (h : exn -> M A) : M A :=
  fun tr =>
    match m tr with
    | (Raise e, tr') => if handles e then h e tr' else (Raise e, tr')
    | r => r
    end.

Definition print (line : string) : M unit :=
  fun tr => (Ok tt, tr ++ [Print line]).

(** [for x in xs: acc = body(x, acc)] *)
Fixpoint for_each {X S : Type} (xs : list X) (acc : S) (body : X -> S -> M S)
    : M S :=
  match xs with
  | [] => ret acc
  | x :: rest => bind (body x acc) (fun acc' => for_each rest acc' body)
  end.

Notation "x <- m ;; k" := (bind m (fun x => k))
  (at level 61, m at next level, right associativity).
Notation "m ;;; k" := (bind m (fun _ => k))
  (at level 61, right associativity).

(** [except subprocess.CalledProcessError] *)
Definition is_CalledProcessError (e : exn) : bool :=
  match e with
  | CalledProcessError _ _ => true
  | ValueError | UnicodeDecodeError | OSError => false
  end.

(** [except (subprocess.CalledProcessError, ValueError)] *)
Definition is_CalledProcessError_or_ValueError (e : exn) : bool :=
  match e with
  | CalledProcessError _ _ | ValueError | UnicodeDecodeError => true
  | OSError => false
  end.

(** ** Module constants *)

Definition KDEGLOBALS_NAME : string := "kdeglobals".
Definition LIGHT_PROFILE : string := "Light".
Definition DARK_PROFILE : string := "Dark".

(** ** The script *)

Definition dark_indicators : list string :=
  ["dark"; "night"; "black"; "monokai"; "dracula"; "nord"].

Definition is_dark_scheme (scheme_name : string) : bool :=
  let scheme_lower := Py.lower scheme_name in
  Py.any (fun indicator => Py.contains indicator scheme_lower) dark_indicators.

Section Script.

Variable env : Env.

Definition KDEGLOBALS_PATH : string := home env ++ "/.config/kdeglobals".
Definition KONSOLERC_PATH : string := home env ++ "/.config/konsolerc".

(** [subprocess.run(argv, check=check)]: the command and its answer are
    recorded; under [check] a non-zero status raises. *)
Definition subprocess_run (argv : list string) (check : bool)
    : M CompletedProcess :=
  fun tr =>
    let res := respond env tr argv in
    let tr' := tr ++ [Run argv res] in
    if check && negb (returncode res =? 0)%Z
    then (Raise (CalledProcessError argv (returncode res)), tr')
    else (Ok res, tr').

Definition kreadconfig_argv : list string :=
  ["kreadconfig6"; "--group"; "General"; "--key"; "ColorScheme"].

Definition get_kde_color_scheme : M string :=
  try_except
    (result <- subprocess_run kreadconfig_argv true;;
     ret (Py.strip (stdout result)))
    is_CalledProcessError
    (fun _ => ret "").

Definition get_target_profile : M string :=
  scheme <- get_kde_color_scheme;;
  if is_dark_scheme scheme then ret DARK_PROFILE else ret LIGHT_PROFILE.

Definition pgrep_argv : list string := ["pgrep"; "-x"; "konsole"].

(** [[int(pid) for pid in lines if pid]]; [int] may raise [ValueError]. *)
Fixpoint pids_of_lines (lines : list string) : M (list Z) :=
  match lines with
  | [] => ret []
  | pid :: rest =>
      if String.eqb pid "" then pids_of_lines rest
      else match Py.int pid with
           | Some n => pids <- pids_of_lines rest;; ret (n :: pids)
           | None => raise ValueError
           end
  end.

(** The [try] block either returns a list ([Some]) or falls through to
    the final [return []] ([None]). *)
Definition get_konsole_pids : M (list Z) :=
  returned <-
    try_except
      (result <- subprocess_run pgrep_argv false;;
       if (returncode result =? 0)%Z
       then pids <- pids_of_lines
                      (Py.split_lines (Py.strip (stdout result)));;
            ret (Some pids)
       else ret None)
      is_CalledProcessError_or_ValueError
      (fun _ => ret None);;
  match returned with
  | Some pids => ret pids
  | None => ret []
  end.

Definition service_of (pid : Z) : string :=
  "org.kde.konsole-" ++ Py.str_of_int pid.

Definition sessions_argv (pid : Z) : list string :=
  ["qdbus-qt6"; service_of pid; "/Sessions"].

(** The lines of a listing that name a session (lines 86 to 90). *)
Definition session_lines (result : CompletedProcess) : list string :=
  if (returncode result =? 0)%Z
  then filter (fun line => Py.startswith line "/Sessions/")
              (Py.split_lines (Py.strip (stdout result)))
  else [].

Definition get_konsole_sessions (pid : Z) : M (list string) :=
  try_except
    (result <- subprocess_run (sessions_argv pid) false;;
     ret (session_lines result))
    is_CalledProcessError
    (fun _ => ret []).

Definition setProfile_argv (pid : Z) (session_path profile : string)
    : list string :=
  ["qdbus-qt6"; service_of pid; session_path; "setProfile"; profile].

Definition set_session_profile (pid : Z) (session_path profile : string)
    : M bool :=
  try_except
    (subprocess_run (setProfile_argv pid session_path profile) true;;;
     ret true)
    is_CalledProcessError
    (fun _ => ret false).

Definition kwriteconfig_argv (profile : string) : list string :=
  ["kwriteconfig6"; "--file"; KONSOLERC_PATH; "--group"; "Desktop Entry";
   "--key"; "DefaultProfile"; (profile ++ ".profile")%string].

Definition update_konsolerc_default_profile (profile : string) : M unit :=
  try_except
    (subprocess_run (kwriteconfig_argv profile) true;;; ret tt)
    is_CalledProcessError
    (fun e => print ("Failed to update konsolerc: " ++ error_text env e)%string).

Definition summary_line (switched_count : nat) (profile : string) : string :=
  "Switched " ++ Py.str_of_nat switched_count ++ " Konsole session(s) to '"
    ++ profile ++ "' profile".

(** Body of the loop over a process's sessions (lines 137 and 138). *)
Definition switch_session (pid : Z) (profile session : string)
    (switched_count : nat) : M nat :=
  ok <- set_session_profile pid session profile;;
  ret (if ok then switched_count + 1 else switched_count)%nat.

(** Body of the loop over the processes (lines 135 to 138). *)
Definition switch_instance (profile : string) (pid : Z)
    (switched_count : nat) : M nat :=
  sessions <- get_konsole_sessions pid;;
  for_each sessions switched_count (switch_session pid profile).

Definition switch_all_konsoles (profile : string) : M unit :=
  pids <- get_konsole_pids;;
  switched_count <- for_each pids 0%nat (switch_instance profile);;
  print (summary_line switched_count profile).

Definition changed_line (profile : string) : string :=
  "KDE theme changed. Switching to '" ++ profile ++ "' profile...".

Definition on_kdeglobals_changed : M unit :=
  profile <- get_target_profile;;
  print (changed_line profile);;;
  switch_all_konsoles profile;;;
  update_konsolerc_default_profile profile.

(** *** The handler *)

Record KdeGlobalsHandler := {
  _last_switch_time : Q;
  _last_profile : option string
}.

Definition DEBOUNCE_SECONDS : Q := 1 # 2.

(** [KdeGlobalsHandler.__init__] *)
Definition KdeGlobalsHandler_init : KdeGlobalsHandler :=
  {| _last_switch_time := 0; _last_profile := None |}.

(** The two event classes the watch subscribes to. *)
Inductive event_class := IN_CLOSE_WRITE | IN_MOVED_TO.

Record inotify_event := { mask : event_class; name : string }.

Definition _should_process (ev : inotify_event) : bool :=
  String.eqb (name ev) KDEGLOBALS_NAME.

(** [x < y] on clock readings. *)
Definition Qltb (x y : Q) : bool := negb (Qle_bool y x).

(** [profile == self._last_profile]; [None] equals no string. *)
Definition profile_eqb (profile : string) (last : option string) : bool :=
  match last with
  | Some p => String.eqb profile p
  | None => false
  end.

(** [now] is the reading [time.monotonic()] returns on line 168. *)
Definition _debounced_switch (self : KdeGlobalsHandler) (now : Q)
    : M KdeGlobalsHandler :=
  if Qltb (now - _last_switch_time self) DEBOUNCE_SECONDS then ret self
  else
    profile <- get_target_profile;;
    if profile_eqb profile (_last_profile self) then ret self
    else
      let self := {| _last_switch_time := now;
                     _last_profile := Some profile |} in
      print (changed_line profile);;;
      switch_all_konsoles profile;;;
      update_konsolerc_default_profile profile;;;
      ret self.

Definition process_IN_CLOSE_WRITE (self : KdeGlobalsHandler)
    (ev : inotify_event) (now : Q) : M KdeGlobalsHandler :=
  if _should_process ev then _debounced_switch self now else ret self.

Definition process_IN_MOVED_TO (self : KdeGlobalsHandler)
    (ev : inotify_event) (now : Q) : M KdeGlobalsHandler :=
  if _should_process ev then _debounced_switch self now else ret self.

(** The notifier hands each event to the method named after its class. *)
Definition process_event (self : KdeGlobalsHandler) (ev : inotify_event)
    (now : Q) : M KdeGlobalsHandler :=
  match mask ev with
  | IN_CLOSE_WRITE => process_IN_CLOSE_WRITE self ev now
  | IN_MOVED_TO => process_IN_MOVED_TO self ev now
  end.

(** [notifier.loop()] over the events delivered before the interrupt,
    each with the clock reading at which it is handled. *)
Fixpoint notifier_loop (self : KdeGlobalsHandler)
    (events : list (inotify_event * Q)) : M KdeGlobalsHandler :=
  match events with
  | [] => ret self
  | (ev, now) :: rest =>
      self' <- process_event self ev now;;
      notifier_loop self' rest
  end.

Definition detected_line (profile : string) : string :=
  "Current KDE theme detected. Setting '" ++ profile ++ "' profile...".

(** [main] up to the call of [notifier.loop()] (lines 196 to 215). The
    watch manager, the notifier and the watch on the directory are taken
    to be in place: what they leave in the model is the handler. *)
Definition main_before_loop : M KdeGlobalsHandler :=
  print "Konsole Theme Switcher starting...";;;
  profile <- get_target_profile;;
  print (detected_line profile);;;
  switch_all_konsoles profile;;;
  update_konsolerc_default_profile profile;;;
  let handler := KdeGlobalsHandler_init in
  let handler := {| _last_switch_time := _last_switch_time handler;
                    _last_profile := Some profile |} in
  print ("Watching " ++ KDEGLOBALS_PATH ++ " for changes...")%string;;;
  ret handler.

(** [main]: start, handle the events, and on the interrupt say goodbye;
    the interrupt is taken to reach the handler of [main]. The final state
    of the handler is returned for observation. *)
Definition main (events : list (inotify_event * Q)) : M KdeGlobalsHandler :=
  handler <- main_before_loop;;
  handler <- notifier_loop handler events;;
  print (String "010" "Shutting down...");;;
  ret handler.

End Script.

(** ** Any host *)

Module Host.

(** What becomes of [subprocess.run(argv, capture_output=True, text=True)]:
    the program ran and its output is text; it ran and its output cannot
    be decoded; it could not be started. *)
Inductive attempt :=
| Started (res : CompletedProcess)
| Undecodable
| NotStarted.

(** A host tells what becomes of each command, given the history. *)
Record t := { launch : trace -> list string -> attempt }.

(** The host of an environment: every program starts and prints text. *)
Definition of_env (env : Env) : t :=
  {| launch := fun tr argv => Started (respond env tr argv) |}.

Section OnHost.

Variable host : t.

(** [subprocess.run(argv, capture_output=True, text=True, check=check)].
    A program that cannot be started raises before anything happened;
    output that cannot be decoded raises while the output is collected,
    before the status is looked at; neither hands back a result, and the
    trace keeps only the commands that did. *)
Definition subprocess_run (argv : list string) (check : bool)
    : M CompletedProcess :=
  fun tr =>
    match launch host tr argv with
    | NotStarted => (Raise OSError, tr)
    | Undecodable => (Raise UnicodeDecodeError, tr)
    | Started res =>
        let tr' := tr ++ [Run argv res] in
        if check && negb (returncode res =? 0)%Z
        then (Raise (CalledProcessError argv (returncode res)), tr')
        else (Ok res, tr')
    end.

Definition get_kde_color_scheme : M string :=
  try_except
    (result <- subprocess_run kreadconfig_argv true;;
     ret (Py.strip (stdout result)))
    is_CalledProcessError
    (fun _ => ret "").

Definition get_target_profile : M string :=
  scheme <- get_kde_color_scheme;;
  if is_dark_scheme scheme then ret DARK_PROFILE else ret LIGHT_PROFILE.

Definition get_konsole_pids : M (list Z) :=
  returned <-
    try_except
      (result <- subprocess_run pgrep_argv false;;
       if (returncode result =? 0)%Z
       then pids <- pids_of_lines
                      (Py.split_lines (Py.strip (stdout result)));;
            ret (Some pids)
       else ret None)
      is_CalledProcessError_or_ValueError
      (fun _ => ret None);;
  match returned with
  | Some pids => ret pids
  | None => ret []
  end.

End OnHost.

End Host.

(** ** Observing a trace *)

(** What a computation appends to the history it starts from. *)
Definition emitted {A : Type} (m : M A) (tr : trace) : trace :=
  skipn (length tr) (snd (m tr)).

Definition printed (tr : trace) : list string :=
  flat_map (fun e => match e with Print l => [l] | Run _ _ => [] end) tr.

Definition commands (tr : trace) : list (list string * CompletedProcess) :=
  flat_map (fun e => match e with Run a r => [(a, r)] | Print _ => [] end) tr.

Definition program_is (prog : string) (call : list string * CompletedProcess)
    : bool :=
  match fst call with
  | p :: _ => String.eqb p prog
  | [] => false
  end.

(** The calls of one program, with their answers. *)
Definition runs (prog : string) (tr : trace)
    : list (list string * CompletedProcess) :=
  filter (program_is prog) (commands tr).

(** [qdbus-qt6 <service> /Sessions] *)
Definition is_listing (call : list string * CompletedProcess) : bool :=
  match fst call with
  | [p; _; path] => String.eqb p "qdbus-qt6" && String.eqb path "/Sessions"
  | _ => false
  end.

(** [qdbus-qt6 <service> <session> setProfile <profile>] *)
Definition is_apply (call : list string * CompletedProcess) : bool :=
  match fst call with
  | [p; _; _; verb; _] => String.eqb p "qdbus-qt6" && String.eqb verb "setProfile"
  | _ => false
  end.

Definition listing_calls (tr : trace) := filter is_listing (commands tr).
Definition apply_calls (tr : trace) := filter is_apply (commands tr).

Definition succeeded (call : list string * CompletedProcess) : bool :=
  (returncode (snd call) =? 0)%Z.

(** A session target: the service of its process and the session path. *)
Definition targets_of (call : list string * CompletedProcess)
    : list (string * string) :=
  match fst call with
  | [_; service; _] => map (pair service) (session_lines (snd call))
  | _ => []
  end.

(** The targets the listings of a trace yield. *)
Definition discovered (tr : trace) : list (string * string) :=
  flat_map targets_of (listing_calls tr).

Definition apply_argv_of (profile : string) (target : string * string)
    : list string :=
  ["qdbus-qt6"; fst target; snd target; "setProfile"; profile].

(** Each call of [switch_all_konsoles] runs [pgrep] once, each call of
    [update_konsolerc_default_profile] runs [kwriteconfig6] once. *)
Definition switch_calls (tr : trace) : nat := length (runs "pgrep" tr).
Definition persist_calls (tr : trace) : nat := length (runs "kwriteconfig6" tr).

(** ** The specification's words *)

(** [keyword] occurs somewhere inside [text]. *)
Definition occurs_in (keyword text : string) : Prop :=
  exists before after, text = (before ++ keyword ++ after)%string.

(** The lowercased identifier contains one of the dark keywords. *)
Definition has_dark_keyword (identifier : string) : Prop :=
  exists keyword,
    In keyword ["dark"; "night"; "black"; "monokai"; "dracula"; "nord"] /\
    occurs_in keyword (Py.lower identifier).

(** ** Counting and naming what a reconciliation appends *)

(** Successful calls among the applications of a trace. *)
Definition switched (tr : trace) : nat :=
  length (filter succeeded (apply_calls tr)).

(** Failed calls among the applications of a trace. *)
Definition failed (tr : trace) : nat :=
  length (filter (fun call => negb (succeeded call)) (apply_calls tr)).

Definition persist_failure_line (env : Env) (profile : string)
    (res : CompletedProcess) : string :=
  ("Failed to update konsolerc: " ++
   error_text env (CalledProcessError (kwriteconfig_argv env profile)
                                      (returncode res)))%string.

(** What a call of [update_konsolerc_default_profile] appends. *)
Definition persist_effects (env : Env) (profile : string) (tr : trace) : trace :=
  let res := respond env tr (kwriteconfig_argv env profile) in
  Run (kwriteconfig_argv env profile) res ::
    (if (returncode res =? 0)%Z then []
     else [Print (persist_failure_line env profile res)]).

(** What [switch_all_konsoles] followed by
    [update_konsolerc_default_profile] appends: one reconciliation. *)
Definition reconcile_effects (env : Env) (profile : string) (tr : trace)
    : trace :=
  let ds := emitted (switch_all_konsoles env profile) tr in
  ds ++ persist_effects env profile (tr ++ ds).

(** ** The shape of a pass over the targets *)

(** What the loop over one process's sessions appends, and how many calls
    of it succeeded. *)
Inductive session_pass (pid : Z) (profile : string)
    : list string -> trace -> nat -> Prop :=
| session_pass_nil : session_pass pid profile [] [] 0
| session_pass_cons session rest res d n :
    session_pass pid profile rest d n ->
    session_pass pid profile (session :: rest)
      (Run (setProfile_argv pid session profile) res :: d)
      ((if (returncode res =? 0)%Z then 1 else 0) + n).

(** What the loop over the processes appends. *)
Inductive instance_pass (profile : string)
    : list Z -> trace -> nat -> Prop :=
| instance_pass_nil : instance_pass profile [] [] 0
| instance_pass_cons pid rest res d1 n1 d2 n2 :
    session_pass pid profile (session_lines res) d1 n1 ->
    instance_pass profile rest d2 n2 ->
    instance_pass profile (pid :: rest)
      (Run (sessions_argv pid) res :: d1 ++ d2) (n1 + n2).

(** ** Environments used in the examples *)

Definition completed (out : string) : CompletedProcess :=
  {| returncode := 0; stdout := out |}.

Definition exited (status : Z) : CompletedProcess :=
  {| returncode := status; stdout := "" |}.

(** Each line followed by a line feed. *)
Fixpoint text_of_lines (ls : list string) : string :=
  match ls with
  | [] => ""
  | l :: rest => l ++ String "010" (text_of_lines rest)
  end.

Definition env_of (answer : trace -> list string -> CompletedProcess) : Env :=
  {| respond := answer;
     home := "/home/user";
     error_text := fun e =>
       match e with
       | CalledProcessError _ status =>
           ("non-zero exit status " ++ Py.str_of_int status)%string
       | ValueError => "invalid literal"
       | UnicodeDecodeError => "invalid start byte"
       | OSError => "No such file or directory"
       end |}.

(** The desktop uses the scheme [BreezeDark]; no terminal is running. *)
Definition env_dark : Env :=
  env_of (fun _ argv =>
    match argv with
    | "kreadconfig6" :: _ => completed (text_of_lines ["BreezeDark"])
    | "pgrep" :: _ => exited 1
    | _ => completed ""
    end).

(** The appearance query fails. *)
Definition env_unknown : Env :=
  env_of (fun _ argv =>
    match argv with
    | "kreadconfig6" :: _ => exited 1
    | "pgrep" :: _ => exited 1
    | _ => completed ""
    end).

(** One terminal with one session; every call succeeds. *)
Definition env_one_session : Env :=
  env_of (fun _ argv =>
    match argv with
    | "kreadconfig6" :: _ => completed (text_of_lines ["BreezeDark"])
    | "pgrep" :: _ => completed (text_of_lines ["4242"])
    | ["qdbus-qt6"; _; "/Sessions"] => completed (text_of_lines ["/Sessions/1"])
    | _ => completed ""
    end).

(** One terminal with two sessions; the second session refuses the
    profile. *)
Definition env_one_failure : Env :=
  env_of (fun _ argv =>
    match argv with
    | "kreadconfig6" :: _ => completed (text_of_lines ["BreezeDark"])
    | "pgrep" :: _ => completed (text_of_lines ["4242"])
    | ["qdbus-qt6"; _; "/Sessions"] =>
        completed (text_of_lines ["/Sessions/1"; "/Sessions/2"])
    | ["qdbus-qt6"; _; "/Sessions/2"; "setProfile"; _] => exited 1
    | _ => completed ""
    end).

(** Three terminals with two sessions each; the second terminal does not
    answer the listing. *)
Definition env_three_instances : Env :=
  env_of (fun _ argv =>
    match argv with
    | "kreadconfig6" :: _ => completed (text_of_lines ["BreezeDark"])
    | "pgrep" :: _ => completed (text_of_lines ["101"; "102"; "103"])
    | ["qdbus-qt6"; service; "/Sessions"] =>
        if String.eqb service "org.kde.konsole-102" then exited 1
        else completed (text_of_lines ["/Sessions/1"; "/Sessions/2"])
    | _ => completed ""
    end).

(** The process listing holds a line that is no number. *)
Definition env_bad_pid : Env :=
  env_of (fun _ argv =>
    match argv with
    | "pgrep" :: _ => completed (text_of_lines ["4242"; "konsole"])
    | _ => completed ""
    end).

(** Writing the default profile fails. *)
Definition env_persist_fails : Env :=
  env_of (fun _ argv =>
    match argv with
    | "kreadconfig6" :: _ => completed (text_of_lines ["BreezeDark"])
    | "pgrep" :: _ => completed (text_of_lines ["4242"])
    | ["qdbus-qt6"; _; "/Sessions"] => completed (text_of_lines ["/Sessions/1"])
    | "kwriteconfig6" :: _ => exited 1
    | _ => completed ""
    end).

(** The scheme is [BreezeLight] for the first two appearance queries and
    [BreezeDark] from the third on; one terminal with one session. *)
Definition env_scheme_flips : Env :=
  env_of (fun tr argv =>
    match argv with
    | "kreadconfig6" :: _ =>
        if (length (runs "kreadconfig6" tr) <? 2)%nat
        then completed (text_of_lines ["BreezeLight"])
        else completed (text_of_lines ["BreezeDark"])
    | "pgrep" :: _ => completed (text_of_lines ["4242"])
    | ["qdbus-qt6"; _; "/Sessions"] => completed (text_of_lines ["/Sessions/1"])
    | _ => completed ""
    end).

(** A host without [kreadconfig6] and without [pgrep]. *)
Definition host_without_tools : Host.t :=
  {| Host.launch := fun _ _ => Host.NotStarted |}.

(** A host on which every program prints bytes that are no text. *)
Definition host_undecodable : Host.t :=
  {| Host.launch := fun _ _ => Host.Undecodable |}.

Definition kdeglobals_written : inotify_event :=
  {| mask := IN_CLOSE_WRITE; name := "kdeglobals" |}.

Definition kdeglobals_replaced : inotify_event :=
  {| mask := IN_MOVED_TO; name := "kdeglobals" |}.

(** ** Notions for the properties of whole runs *)

(** The event names the watched file. *)
Definition qualifying (e : inotify_event * Q) : bool := _should_process (fst e).

(** The answers of the environment do not depend on what happened before. *)
Definition history_independent (env : Env) : Prop :=
  forall tr tr' argv, respond env tr argv = respond env tr' argv.

(** A computation that gives the same result and appends the same effects
    whatever the history it starts from. *)
Definition history_free {A : Type} (m : M A) : Prop :=
  forall tr tr', exists r d, m tr = (r, tr ++ d) /\ m tr' = (r, tr' ++ d).

(** An application of [profile] to a path below [/Sessions/]. *)
Definition session_apply (profile : string)
    (call : list string * CompletedProcess) : Prop :=
  exists service session,
    fst call = ["qdbus-qt6"; service; session; "setProfile"; profile] /\
    Py.startswith session "/Sessions/" = true.

(** One of the two profiles the script knows. *)
Definition known_profile (profile : string) : Prop :=
  profile = LIGHT_PROFILE \/ profile = DARK_PROFILE.

(** A write of one of the two profiles as the default. *)
Definition known_persist (env : Env) (call : list string * CompletedProcess)
    : Prop :=
  fst call = kwriteconfig_argv env LIGHT_PROFILE \/
  fst call = kwriteconfig_argv env DARK_PROFILE.

(** Each profile of the list differs from the one before it, the first
    from [last]. *)
Fixpoint changing (last : option string) (profiles : list string) : Prop :=
  match profiles with
  | [] => True
  | profile :: rest => last <> Some profile /\ changing (Some profile) rest
  end.

(** * Properties *)

Example strip_ex : Py.strip (String "009" " Breeze Dark" ++ String "010" "") = "Breeze Dark".
Proof. reflexivity. Qed.
Example split_ex : Py.split_lines (String "a" (String "010" (String "010" "b"))) = ["a"; ""; "b"].
Proof. reflexivity. Qed.
Example int_ex :
  map Py.int [" 12 "; "-7"; "+1_000"; "1__0"; "_1"; "1_"; ""; "12a"; "007";
              "+ 1"; "-"; String "028" "1"; String "009" "1"]
  = [Some 12%Z; Some (-7)%Z; Some 1000%Z; None; None; None; None; None;
     Some 7%Z; None; None; None; Some 1%Z].
Proof. reflexivity. Qed.
Example dark_ex : map is_dark_scheme ["BreezeDark"; "BreezeLight"; ""; "Nordic"; "MIDNIGHT"]
  = [true; false; false; true; true].
Proof. reflexivity. Qed.

(** ** Strings *)

Lemma prefix_iff (p s : string) :
  String.prefix p s = true <-> exists rest, s = (p ++ rest)%string.
Proof.
  revert s. induction p as [|c p IH]; intros s.
  - split; [intros _; exists s; reflexivity | intros _; now destruct s].
  - destruct s as [|c' s]; simpl.
    + split; [discriminate | intros [rest H]; discriminate].
    + destruct (ascii_dec c c') as [->|Hne].
      * rewrite IH. split; intros [rest H]; exists rest.
        -- now rewrite H.
        -- now inversion H.
      * split; [discriminate | intros [rest H]; congruence].
Qed.

Lemma contains_iff (needle hay : string) :
  Py.contains needle hay = true <-> occurs_in needle hay.
Proof.
  unfold occurs_in. induction hay as [|c hay IH]; cbn [Py.contains].
  - rewrite orb_false_r, prefix_iff. split.
    + intros [rest H]. exists EmptyString, rest. exact H.
    + intros [[|b before] [after H]]; [exists after; exact H | discriminate].
  - rewrite orb_true_iff, prefix_iff, IH. split.
    + intros [[rest H] | [before [after H]]].
      * exists EmptyString, rest. exact H.
      * exists (String c before), after. simpl. now rewrite H.
    + intros [[|b before] [after H]].
      * left. exists after. exact H.
      * right. exists before, after. simpl in H. now inversion H.
Qed.

Lemma is_dark_scheme_iff (scheme : string) :
  is_dark_scheme scheme = true <-> has_dark_keyword scheme.
Proof.
  unfold is_dark_scheme, has_dark_keyword, Py.any, dark_indicators.
  rewrite existsb_exists. split; intros [k [Hin Hk]]; exists k; split; trivial;
    now apply contains_iff.
Qed.

Lemma is_dark_scheme_empty : is_dark_scheme "" = false.
Proof. reflexivity. Qed.

(** ** The mode resolver *)

Lemma get_kde_color_scheme_run (env : Env) (tr : trace) :
  let res := respond env tr kreadconfig_argv in
  get_kde_color_scheme env tr =
    (Ok (if (returncode res =? 0)%Z then Py.strip (stdout res) else ""%string),
     tr ++ [Run kreadconfig_argv res]).
Proof.
  unfold get_kde_color_scheme, try_except, bind, subprocess_run, ret; simpl.
  destruct (returncode (respond env tr kreadconfig_argv) =? 0)%Z; reflexivity.
Qed.

Lemma get_target_profile_run (env : Env) (tr : trace) :
  let res := respond env tr kreadconfig_argv in
  let scheme := if (returncode res =? 0)%Z then Py.strip (stdout res) else ""%string in
  get_target_profile env tr =
    (Ok (if is_dark_scheme scheme then DARK_PROFILE else LIGHT_PROFILE),
     tr ++ [Run kreadconfig_argv res]).
Proof.
  unfold get_target_profile, bind. rewrite get_kde_color_scheme_run.
  simpl. destruct (is_dark_scheme _); reflexivity.
Qed.

Lemma get_target_profile_of_scheme (env : Env) (tr : trace) (scheme : string) :
  fst (get_kde_color_scheme env tr) = Ok scheme ->
  fst (get_target_profile env tr) =
    Ok (if is_dark_scheme scheme then DARK_PROFILE else LIGHT_PROFILE).
Proof.
  rewrite get_kde_color_scheme_run, get_target_profile_run. simpl.
  intros H. inversion H. reflexivity.
Qed.

(** ** One call at a time *)

Lemma emitted_app {A : Type} (m : M A) (tr d : trace) (r : outcome A) :
  m tr = (r, tr ++ d) -> emitted m tr = d.
Proof.
  intros H. unfold emitted. rewrite H. simpl.
  rewrite skipn_app, skipn_all, Nat.sub_diag. reflexivity.
Qed.

Lemma pids_of_lines_pure (lines : list string) (tr : trace) :
  (exists pids, pids_of_lines lines tr = (Ok pids, tr)) \/
  pids_of_lines lines tr = (Raise ValueError, tr).
Proof.
  induction lines as [|pid rest IH]; simpl.
  - left. exists []. reflexivity.
  - destruct (String.eqb pid ""); [exact IH|].
    destruct (Py.int pid) as [n|]; [|right; reflexivity].
    unfold bind. destruct IH as [[pids ->] | ->].
    + left. exists (n :: pids). reflexivity.
    + right. reflexivity.
Qed.

Lemma get_konsole_pids_run (env : Env) (tr : trace) :
  exists pids,
    get_konsole_pids env tr =
      (Ok pids, tr ++ [Run pgrep_argv (respond env tr pgrep_argv)]).
Proof.
  unfold get_konsole_pids, bind, try_except, subprocess_run, ret. simpl.
  destruct (returncode (respond env tr pgrep_argv) =? 0)%Z.
  - match goal with |- context [pids_of_lines ?l ?t] =>
      destruct (pids_of_lines_pure l t) as [[pids ->] | ->] end.
    + exists pids. reflexivity.
    + exists []. reflexivity.
  - exists []. reflexivity.
Qed.

Lemma get_konsole_sessions_run (env : Env) (pid : Z) (tr : trace) :
  let res := respond env tr (sessions_argv pid) in
  get_konsole_sessions env pid tr =
    (Ok (session_lines res), tr ++ [Run (sessions_argv pid) res]).
Proof. reflexivity. Qed.

Lemma set_session_profile_run (env : Env) (pid : Z) (session profile : string)
    (tr : trace) :
  let res := respond env tr (setProfile_argv pid session profile) in
  set_session_profile env pid session profile tr =
    (Ok (returncode res =? 0)%Z,
     tr ++ [Run (setProfile_argv pid session profile) res]).
Proof.
  unfold set_session_profile, try_except, bind, subprocess_run, ret. simpl.
  destruct (returncode _ =? 0)%Z; reflexivity.
Qed.

Lemma update_konsolerc_default_profile_run (env : Env) (profile : string)
    (tr : trace) :
  let res := respond env tr (kwriteconfig_argv env profile) in
  update_konsolerc_default_profile env profile tr =
    (Ok tt,
     tr ++ Run (kwriteconfig_argv env profile) res ::
       (if (returncode res =? 0)%Z then []
        else [Print (persist_failure_line env profile res)])).
Proof.
  unfold update_konsolerc_default_profile, try_except, bind, subprocess_run,
    ret, print, persist_failure_line. simpl.
  destruct (returncode _ =? 0)%Z; simpl; [reflexivity|].
  rewrite <- app_assoc. reflexivity.
Qed.

Lemma switch_sessions_run (env : Env) (pid : Z) (profile : string)
    (sessions : list string) :
  forall (count : nat) (tr : trace),
  exists d n,
    for_each sessions count (switch_session env pid profile) tr =
      (Ok (count + n)%nat, tr ++ d) /\
    session_pass pid profile sessions d n.
Proof.
  induction sessions as [|session rest IH]; intros count tr.
  - exists [], 0%nat. simpl. unfold ret.
    rewrite app_nil_r, Nat.add_0_r. split; [reflexivity | constructor].
  - cbn [for_each]. unfold bind at 1, switch_session at 1, bind at 1.
    rewrite set_session_profile_run. cbv beta iota zeta. unfold ret at 1.
    set (res := respond env tr (setProfile_argv pid session profile)).
    destruct (IH (if (returncode res =? 0)%Z then (count + 1)%nat else count)
                 (tr ++ [Run (setProfile_argv pid session profile) res]))
      as (d & n & Hrun & Hpass).
    exists (Run (setProfile_argv pid session profile) res :: d),
           ((if (returncode res =? 0)%Z then 1 else 0) + n)%nat.
    split; [| now constructor].
    rewrite Hrun, <- app_assoc. simpl.
    destruct (returncode res =? 0)%Z; do 2 f_equal; lia.
Qed.

Lemma switch_instances_run (env : Env) (profile : string) (pids : list Z) :
  forall (count : nat) (tr : trace),
  exists d n,
    for_each pids count (switch_instance env profile) tr =
      (Ok (count + n)%nat, tr ++ d) /\
    instance_pass profile pids d n.
Proof.
  induction pids as [|pid rest IH]; intros count tr.
  - exists [], 0%nat. simpl. unfold ret.
    rewrite app_nil_r, Nat.add_0_r. split; [reflexivity | constructor].
  - cbn [for_each]. unfold bind at 1, switch_instance at 1, bind at 1.
    rewrite get_konsole_sessions_run. cbv beta iota zeta.
    set (res := respond env tr (sessions_argv pid)).
    destruct (switch_sessions_run env pid profile (session_lines res) count
                (tr ++ [Run (sessions_argv pid) res]))
      as (d1 & n1 & Hrun1 & Hpass1).
    rewrite Hrun1.
    destruct (IH (count + n1)%nat ((tr ++ [Run (sessions_argv pid) res]) ++ d1))
      as (d2 & n2 & Hrun2 & Hpass2).
    exists (Run (sessions_argv pid) res :: d1 ++ d2), (n1 + n2)%nat.
    split; [| now constructor].
    rewrite Hrun2, <- !app_assoc. simpl. do 2 f_equal. lia.
Qed.

Lemma switch_all_konsoles_run (env : Env) (profile : string) (tr : trace) :
  exists pids d n,
    get_konsole_pids env tr =
      (Ok pids, tr ++ [Run pgrep_argv (respond env tr pgrep_argv)]) /\
    instance_pass profile pids d n /\
    switch_all_konsoles env profile tr =
      (Ok tt,
       tr ++ Run pgrep_argv (respond env tr pgrep_argv) :: d
          ++ [Print (summary_line n profile)]).
Proof.
  destruct (get_konsole_pids_run env tr) as [pids Hpids].
  destruct (switch_instances_run env profile pids 0
              (tr ++ [Run pgrep_argv (respond env tr pgrep_argv)]))
    as (d & n & Hrun & Hpass).
  exists pids, d, n. split; [exact Hpids|]. split; [exact Hpass|].
  unfold switch_all_konsoles, bind. rewrite Hpids, Hrun. unfold print.
  rewrite <- !app_assoc. reflexivity.
Qed.

(** ** Observations distribute over the history *)

Lemma printed_app (a b : trace) : printed (a ++ b) = printed a ++ printed b.
Proof. apply flat_map_app. Qed.

Lemma commands_app (a b : trace) : commands (a ++ b) = commands a ++ commands b.
Proof. apply flat_map_app. Qed.

Lemma runs_app (prog : string) (a b : trace) :
  runs prog (a ++ b) = runs prog a ++ runs prog b.
Proof. unfold runs. now rewrite commands_app, filter_app. Qed.

Lemma apply_calls_app (a b : trace) :
  apply_calls (a ++ b) = apply_calls a ++ apply_calls b.
Proof. unfold apply_calls. now rewrite commands_app, filter_app. Qed.

Lemma listing_calls_app (a b : trace) :
  listing_calls (a ++ b) = listing_calls a ++ listing_calls b.
Proof. unfold listing_calls. now rewrite commands_app, filter_app. Qed.

Lemma discovered_app (a b : trace) :
  discovered (a ++ b) = discovered a ++ discovered b.
Proof. unfold discovered. now rewrite listing_calls_app, flat_map_app. Qed.

Lemma switch_calls_app (a b : trace) :
  switch_calls (a ++ b) = (switch_calls a + switch_calls b)%nat.
Proof. unfold switch_calls. now rewrite runs_app, length_app. Qed.

Lemma persist_calls_app (a b : trace) :
  persist_calls (a ++ b) = (persist_calls a + persist_calls b)%nat.
Proof. unfold persist_calls. now rewrite runs_app, length_app. Qed.

Lemma switched_app (a b : trace) :
  switched (a ++ b) = (switched a + switched b)%nat.
Proof. unfold switched. now rewrite apply_calls_app, filter_app, length_app. Qed.

Lemma switched_failed (tr : trace) :
  (switched tr + failed tr)%nat = length (apply_calls tr).
Proof.
  unfold switched, failed. induction (apply_calls tr) as [|c l IH]; simpl.
  - reflexivity.
  - destruct (succeeded c); simpl; lia.
Qed.

(** Everything a pass over one process's sessions appends is an
    application, one per session and in order. *)
Lemma session_pass_facts (pid : Z) (profile : string) (sessions : list string)
    (d : trace) (n : nat) :
  session_pass pid profile sessions d n ->
  printed d = [] /\
  runs "pgrep" d = [] /\
  runs "kwriteconfig6" d = [] /\
  listing_calls d = [] /\
  map fst (apply_calls d) =
    map (fun session => setProfile_argv pid session profile) sessions /\
  switched d = n.
Proof.
  induction 1 as [|session rest res d n _ (Hp & Hg & Hk & Hl & Ha & Hs)].
  - repeat split; reflexivity.
  - repeat split; trivial.
    + change (apply_calls (Run (setProfile_argv pid session profile) res :: d))
        with ((setProfile_argv pid session profile, res) :: apply_calls d).
      simpl. now rewrite Ha.
    + unfold switched.
      change (apply_calls (Run (setProfile_argv pid session profile) res :: d))
        with ((setProfile_argv pid session profile, res) :: apply_calls d).
      cbn [filter]. unfold succeeded at 1. cbn [snd].
      fold (switched d) in Hs |- *.
      destruct (returncode res =? 0)%Z; cbn [length]; fold (switched d);
        rewrite Hs; reflexivity.
Qed.

(** A pass over the processes lists every process, applies the profile to
    every session the listings yield, and prints nothing. *)
Lemma instance_pass_facts (profile : string) (pids : list Z) (d : trace)
    (n : nat) :
  instance_pass profile pids d n ->
  printed d = [] /\
  runs "pgrep" d = [] /\
  runs "kwriteconfig6" d = [] /\
  map fst (listing_calls d) = map sessions_argv pids /\
  map fst (apply_calls d) = map (apply_argv_of profile) (discovered d) /\
  switched d = n.
Proof.
  induction 1 as [|pid rest res d1 n1 d2 n2 H1 _ (Hp & Hg & Hk & Hl & Ha & Hs)].
  - repeat split; reflexivity.
  - destruct (session_pass_facts _ _ _ _ _ H1)
      as (Hp1 & Hg1 & Hk1 & Hl1 & Ha1 & Hs1).
    change (Run (sessions_argv pid) res :: d1 ++ d2)
      with ([Run (sessions_argv pid) res] ++ d1 ++ d2).
    rewrite !printed_app, !runs_app, !listing_calls_app, !apply_calls_app,
      !discovered_app, !switched_app, Hp1, Hg1, Hk1, Hl1, Hp, Hg, Hk, Hs, Hs1.
    repeat split; trivial.
    + simpl. now rewrite Hl.
    + unfold discovered at 2. rewrite Hl1. simpl.
      change (discovered [Run (sessions_argv pid) res])
        with (map (pair (service_of pid)) (session_lines res) ++ []).
      rewrite app_nil_r, !map_app, Ha1, Ha, map_map. reflexivity.
Qed.

(** ** A call of [switch_all_konsoles] *)

(** One call never raises; it runs [pgrep] once and [kwriteconfig6] never,
    applies the profile to every discovered target, and prints one line
    with the number of successful applications. *)
Lemma switch_all_konsoles_facts (env : Env) (profile : string) (tr : trace) :
  let d := emitted (switch_all_konsoles env profile) tr in
  switch_all_konsoles env profile tr = (Ok tt, tr ++ d) /\
  printed d = [summary_line (switched d) profile] /\
  switch_calls d = 1%nat /\
  persist_calls d = 0%nat /\
  map fst (apply_calls d) = map (apply_argv_of profile) (discovered d).
Proof.
  destruct (switch_all_konsoles_run env profile tr)
    as (pids & d & n & _ & Hpass & Hrun).
  cbv zeta. rewrite (emitted_app _ _ _ _ Hrun).
  destruct (instance_pass_facts _ _ _ _ Hpass) as (Hp & Hg & Hk & _ & Ha & Hs).
  set (res := respond env tr pgrep_argv) in *.
  change (Run pgrep_argv res :: d ++ [Print (summary_line n profile)])
    with ([Run pgrep_argv res] ++ d ++ [Print (summary_line n profile)]).
  unfold switch_calls, persist_calls.
  rewrite !printed_app, !runs_app, !apply_calls_app, !discovered_app,
    !switched_app, Hp, Hg, Hk, Hs.
  split; [exact Hrun|].
  repeat split.
  - simpl. now rewrite Nat.add_0_r.
  - simpl. now rewrite !app_nil_r.
Qed.

(** ** Mode resolver *)

(** C3. For every identifier the appearance query yields, the resolver
    returns Dark exactly when the lowercased identifier contains one of
    the six dark keywords and Light exactly when it contains none;
    [BreezeDark] resolves to Dark; and two resolutions of the same
    identifier agree. *)
Theorem mode_resolver_classification (env : Env) (tr : trace)
    (identifier : string) :
  fst (get_kde_color_scheme env tr) = Ok identifier ->
  (fst (get_target_profile env tr) = Ok DARK_PROFILE <->
     has_dark_keyword identifier) /\
  (fst (get_target_profile env tr) = Ok LIGHT_PROFILE <->
     ~ has_dark_keyword identifier) /\
  (identifier = "BreezeDark" ->
     fst (get_target_profile env tr) = Ok DARK_PROFILE) /\
  (forall env' tr',
     fst (get_kde_color_scheme env' tr') = Ok identifier ->
     fst (get_target_profile env' tr') = fst (get_target_profile env tr)).
Proof.
  intros Hid. rewrite (get_target_profile_of_scheme _ _ _ Hid).
  rewrite <- is_dark_scheme_iff.
  repeat split.
  - destruct (is_dark_scheme identifier); [reflexivity | discriminate].
  - intros ->. reflexivity.
  - destruct (is_dark_scheme identifier); [discriminate | discriminate].
  - intros H. destruct (is_dark_scheme identifier); [contradiction | reflexivity].
  - intros ->. reflexivity.
  - intros env' tr' Hid'. now rewrite (get_target_profile_of_scheme _ _ _ Hid').
Qed.

Lemma mode_resolver_classification_witness :
  fst (get_kde_color_scheme env_dark []) = Ok "BreezeDark"%string /\
  fst (get_target_profile env_dark []) = Ok DARK_PROFILE /\
  has_dark_keyword "BreezeDark".
Proof.
  assert (H : fst (get_kde_color_scheme env_dark []) = Ok "BreezeDark"%string)
    by reflexivity.
  destruct (mode_resolver_classification env_dark [] "BreezeDark" H)
    as (Hdark & _ & Hbreeze & _).
  split; [exact H|]. split; [exact (Hbreeze eq_refl)|].
  apply Hdark. exact (Hbreeze eq_refl).
Defined.

(** On the host of an environment the functions given on any host are
    the functions of the environment. *)
Lemma host_of_env_agrees (env : Env) :
  Host.get_kde_color_scheme (Host.of_env env) = get_kde_color_scheme env /\
  Host.get_target_profile (Host.of_env env) = get_target_profile env /\
  Host.get_konsole_pids (Host.of_env env) = get_konsole_pids env.
Proof. repeat split; reflexivity. Qed.

Lemma host_get_kde_color_scheme_run (host : Host.t) (tr : trace) :
  Host.get_kde_color_scheme host tr =
    match Host.launch host tr kreadconfig_argv with
    | Host.Started res =>
        (Ok (if (returncode res =? 0)%Z then Py.strip (stdout res)
             else ""%string),
         tr ++ [Run kreadconfig_argv res])
    | Host.Undecodable => (Raise UnicodeDecodeError, tr)
    | Host.NotStarted => (Raise OSError, tr)
    end.
Proof.
  unfold Host.get_kde_color_scheme, try_except, bind, Host.subprocess_run, ret.
  destruct (Host.launch host tr kreadconfig_argv) as [res| |]; try reflexivity.
  simpl. destruct (returncode res =? 0)%Z; reflexivity.
Qed.

Lemma host_get_target_profile_run (host : Host.t) (tr : trace) :
  Host.get_target_profile host tr =
    match Host.launch host tr kreadconfig_argv with
    | Host.Started res =>
        (Ok (if is_dark_scheme
                  (if (returncode res =? 0)%Z then Py.strip (stdout res)
                   else ""%string)
             then DARK_PROFILE else LIGHT_PROFILE),
         tr ++ [Run kreadconfig_argv res])
    | Host.Undecodable => (Raise UnicodeDecodeError, tr)
    | Host.NotStarted => (Raise OSError, tr)
    end.
Proof.
  unfold Host.get_target_profile, bind.
  rewrite host_get_kde_color_scheme_run.
  destruct (Host.launch host tr kreadconfig_argv) as [res| |]; try reflexivity.
  destruct (is_dark_scheme _); reflexivity.
Qed.

(** C4, as the claim states it, fails: on a host where [kreadconfig6]
    cannot be started, and on one where its output cannot be decoded, the
    query fails and the resolver raises instead of returning Light. *)
Lemma appearance_query_failure_raises :
  Host.launch host_without_tools [] kreadconfig_argv = Host.NotStarted /\
  Host.get_target_profile host_without_tools [] = (Raise OSError, []) /\
  Host.launch host_undecodable [] kreadconfig_argv = Host.Undecodable /\
  Host.get_target_profile host_undecodable [] = (Raise UnicodeDecodeError, []).
Proof. repeat split; reflexivity. Qed.

(** C4, amended. When [kreadconfig6] runs and its output is text, a
    non-zero exit status or an answer of nothing but whitespace resolves
    to Light and nothing is raised. When the program cannot be started or
    its output cannot be decoded, no handler applies and the exception
    reaches the caller. *)
Theorem unknown_appearance_on_host (host : Host.t) (tr : trace) :
  (forall res,
     Host.launch host tr kreadconfig_argv = Host.Started res ->
     returncode res <> 0%Z \/ Py.strip (stdout res) = ""%string ->
     Host.get_target_profile host tr =
       (Ok LIGHT_PROFILE, tr ++ [Run kreadconfig_argv res])) /\
  (Host.launch host tr kreadconfig_argv = Host.Undecodable ->
     Host.get_target_profile host tr = (Raise UnicodeDecodeError, tr)) /\
  (Host.launch host tr kreadconfig_argv = Host.NotStarted ->
     Host.get_target_profile host tr = (Raise OSError, tr)).
Proof.
  rewrite host_get_target_profile_run. repeat split.
  - intros res -> H. destruct (returncode res =? 0)%Z eqn:E.
    + destruct H as [H | ->]; [|reflexivity].
      apply Z.eqb_eq in E. contradiction.
    + reflexivity.
  - now intros ->.
  - now intros ->.
Qed.

Lemma unknown_appearance_on_host_witness :
  Host.launch (Host.of_env env_unknown) [] kreadconfig_argv =
    Host.Started (exited 1) /\
  fst (Host.get_target_profile (Host.of_env env_unknown) []) =
    Ok "Light"%string /\
  fst (Host.get_target_profile
         (Host.of_env (env_of (fun _ _ => completed (text_of_lines [" "]))))
         []) = Ok "Light"%string /\
  fst (Host.get_target_profile host_without_tools []) = Raise OSError.
Proof.
  split; [reflexivity|]. split; [|split].
  - destruct (unknown_appearance_on_host (Host.of_env env_unknown) [])
      as (Hlight & _ & _).
    rewrite (Hlight (exited 1) eq_refl); [reflexivity|].
    left. vm_compute. discriminate.
  - destruct (unknown_appearance_on_host
                (Host.of_env (env_of (fun _ _ => completed (text_of_lines [" "]))))
                []) as (Hlight & _ & _).
    rewrite (Hlight (completed (text_of_lines [" "])) eq_refl); [reflexivity|].
    right. reflexivity.
  - destruct (unknown_appearance_on_host host_without_tools [])
      as (_ & _ & Hmissing).
    rewrite (Hmissing eq_refl). reflexivity.
Defined.

(** ** Target discovery *)

Lemma pids_of_lines_bad_line (lines : list string) (tr : trace)
    (line : string) :
  In line lines -> line <> ""%string -> Py.int line = None ->
  pids_of_lines lines tr = (Raise ValueError, tr).
Proof.
  intros Hin Hne Hint.
  induction lines as [|l ls IH]; [destruct Hin|]. cbn [pids_of_lines].
  destruct (String.eqb l "") eqn:El.
  - destruct Hin as [-> | Hin]; [apply String.eqb_eq in El; contradiction|].
    now apply IH.
  - destruct Hin as [-> | Hin]; [now rewrite Hint|].
    destruct (Py.int l); [|reflexivity].
    unfold bind. now rewrite (IH Hin).
Qed.

(** C10, as the claim states it, fails: on a host where [pgrep] cannot be
    started the enumeration raises to its caller. *)
Lemma get_konsole_pids_raises_without_pgrep :
  Host.launch host_without_tools [] pgrep_argv = Host.NotStarted /\
  Host.get_konsole_pids host_without_tools [] = (Raise OSError, []).
Proof. split; reflexivity. Qed.

(** C10, amended. Whenever [pgrep] is started, [get_konsole_pids] returns a
    list and raises nothing: the list is empty when the output cannot be
    decoded, when the exit status is not zero and when some non-empty line
    of the output is no integer. When [pgrep] cannot be started, the error
    is not caught and reaches the caller. *)
Theorem get_konsole_pids_on_host (host : Host.t) (tr : trace) :
  (Host.launch host tr pgrep_argv = Host.NotStarted ->
     Host.get_konsole_pids host tr = (Raise OSError, tr)) /\
  (Host.launch host tr pgrep_argv = Host.Undecodable ->
     Host.get_konsole_pids host tr = (Ok [], tr)) /\
  (forall res,
     Host.launch host tr pgrep_argv = Host.Started res ->
     exists pids,
       Host.get_konsole_pids host tr = (Ok pids, tr ++ [Run pgrep_argv res]) /\
       (returncode res <> 0%Z -> pids = []) /\
       (forall line,
          In line (Py.split_lines (Py.strip (stdout res))) ->
          line <> ""%string -> Py.int line = None -> pids = [])).
Proof.
  unfold Host.get_konsole_pids, bind, try_except, Host.subprocess_run, ret.
  repeat split.
  - now intros ->.
  - now intros ->.
  - intros res ->. simpl. destruct (returncode res =? 0)%Z eqn:E.
    + match goal with |- context [pids_of_lines ?l ?t] =>
        destruct (pids_of_lines_pure l t) as [[pids Hp] | Hp]; rewrite Hp end.
      * exists pids. split; [reflexivity|]. split.
        -- intros H. apply Z.eqb_eq in E. contradiction.
        -- intros line Hin Hne Hint.
           rewrite (pids_of_lines_bad_line _ _ line Hin Hne Hint) in Hp.
           discriminate.
      * exists []. repeat split; reflexivity.
    + exists []. repeat split; reflexivity.
Qed.

Lemma get_konsole_pids_on_host_witness :
  Host.get_konsole_pids host_undecodable [] = (Ok [], []) /\
  fst (Host.get_konsole_pids (Host.of_env env_bad_pid) []) = Ok [] /\
  fst (Host.get_konsole_pids (Host.of_env env_dark) []) = Ok [] /\
  fst (Host.get_konsole_pids host_without_tools []) = Raise OSError.
Proof.
  split; [|split; [|split]].
  - destruct (get_konsole_pids_on_host host_undecodable []) as (_ & H & _).
    exact (H eq_refl).
  - destruct (get_konsole_pids_on_host (Host.of_env env_bad_pid) [])
      as (_ & _ & H).
    destruct (H _ eq_refl) as (pids & Hrun & _ & Hbad).
    rewrite Hrun.
    rewrite (Hbad "konsole"%string); [reflexivity | | discriminate | reflexivity].
    vm_compute. right. left. reflexivity.
  - destruct (get_konsole_pids_on_host (Host.of_env env_dark) [])
      as (_ & _ & H).
    destruct (H _ eq_refl) as (pids & Hrun & Hexit & _).
    rewrite Hrun, Hexit; [reflexivity | vm_compute; discriminate].
  - destruct (get_konsole_pids_on_host host_without_tools []) as (H & _).
    rewrite (H eq_refl). reflexivity.
Defined.

(** ** Reconciliation over the targets *)

(** C5. When exactly one application of a pass fails, every discovered
    target has still received its call, in order, and the reported count
    is the number of targets minus one. *)
Theorem partial_failure_isolation (env : Env) (profile : string) (tr : trace) :
  let d := emitted (switch_all_konsoles env profile) tr in
  failed d = 1%nat ->
  switch_all_konsoles env profile tr = (Ok tt, tr ++ d) /\
  map fst (apply_calls d) = map (apply_argv_of profile) (discovered d) /\
  printed d = [summary_line (length (discovered d) - 1) profile].
Proof.
  intros d Hfail.
  destruct (switch_all_konsoles_facts env profile tr)
    as (Hrun & Hprint & _ & _ & Happly).
  fold d in Hrun, Hprint, Happly.
  split; [exact Hrun|]. split; [exact Happly|].
  rewrite Hprint. do 2 f_equal.
  pose proof (switched_failed d) as Hsum.
  rewrite <- (length_map fst), Happly, length_map in Hsum. lia.
Qed.

Lemma partial_failure_isolation_witness :
  failed (emitted (switch_all_konsoles env_one_failure "Dark") []) = 1%nat /\
  discovered (emitted (switch_all_konsoles env_one_failure "Dark") []) =
    [("org.kde.konsole-4242", "/Sessions/1");
     ("org.kde.konsole-4242", "/Sessions/2")]%string /\
  printed (emitted (switch_all_konsoles env_one_failure "Dark") []) =
    ["Switched 1 Konsole session(s) to 'Dark' profile"%string].
Proof.
  assert (H : failed (emitted (switch_all_konsoles env_one_failure "Dark") [])
              = 1%nat) by (vm_compute; reflexivity).
  destruct (partial_failure_isolation env_one_failure "Dark" [] H)
    as (_ & _ & Hprint).
  split; [exact H|]. split; [vm_compute; reflexivity|].
  rewrite Hprint. vm_compute. reflexivity.
Defined.

(** C6. A process whose listing fails yields no session and no exception,
    and the loop goes on with the remaining processes exactly as if that
    process had not been there: the count is untouched and every later
    process is still listed. *)
Theorem discovery_failure_isolation (env : Env) (profile : string) (pid : Z)
    (others : list Z) (count : nat) (tr : trace) :
  let res := respond env tr (sessions_argv pid) in
  returncode res <> 0%Z ->
  get_konsole_sessions env pid tr =
    (Ok [], tr ++ [Run (sessions_argv pid) res]) /\
  for_each (pid :: others) count (switch_instance env profile) tr =
    for_each others count (switch_instance env profile)
      (tr ++ [Run (sessions_argv pid) res]) /\
  exists d n,
    for_each (pid :: others) count (switch_instance env profile) tr =
      (Ok (count + n)%nat, tr ++ Run (sessions_argv pid) res :: d) /\
    map fst (listing_calls d) = map sessions_argv others /\
    map fst (apply_calls d) = map (apply_argv_of profile) (discovered d) /\
    switched d = n.
Proof.
  intros res Hfail.
  assert (Hnone : session_lines res = []).
  { unfold session_lines. destruct (returncode res =? 0)%Z eqn:E; [|reflexivity].
    apply Z.eqb_eq in E. contradiction. }
  assert (Hlist : get_konsole_sessions env pid tr =
                    (Ok [], tr ++ [Run (sessions_argv pid) res])).
  { rewrite get_konsole_sessions_run. fold res. now rewrite Hnone. }
  assert (Hskip : for_each (pid :: others) count (switch_instance env profile) tr =
                  for_each others count (switch_instance env profile)
                    (tr ++ [Run (sessions_argv pid) res])).
  { cbn [for_each]. unfold bind at 1, switch_instance at 1, bind at 1.
    rewrite Hlist. reflexivity. }
  split; [exact Hlist|]. split; [exact Hskip|].
  destruct (switch_instances_run env profile others count
              (tr ++ [Run (sessions_argv pid) res]))
    as (d & n & Hrun & Hpass).
  destruct (instance_pass_facts _ _ _ _ Hpass) as (_ & _ & _ & Hl & Ha & Hs).
  exists d, n. rewrite Hskip, Hrun, <- app_assoc. repeat split; trivial.
Qed.

(** Three processes with two sessions each, the second one not answering:
    four targets are attempted. *)
Lemma discovery_failure_isolation_witness :
  let tr := [Run pgrep_argv (respond env_three_instances [] pgrep_argv);
             Run (sessions_argv 101) (respond env_three_instances
                    [Run pgrep_argv (respond env_three_instances [] pgrep_argv)]
                    (sessions_argv 101))] in
  let d := emitted (switch_all_konsoles env_three_instances "Dark") [] in
  returncode (respond env_three_instances tr (sessions_argv 102)) <> 0%Z /\
  fst (get_konsole_sessions env_three_instances 102 tr) = Ok [] /\
  fst (get_konsole_pids env_three_instances []) = Ok [101; 102; 103]%Z /\
  length (listing_calls d) = 3%nat /\
  length (apply_calls d) = 4%nat /\
  printed d = ["Switched 4 Konsole session(s) to 'Dark' profile"%string].
Proof.
  intros tr d.
  assert (H : returncode (respond env_three_instances tr (sessions_argv 102))
              <> 0%Z) by (vm_compute; discriminate).
  destruct (discovery_failure_isolation env_three_instances "Dark" 102 [103%Z]
              0%nat tr H) as (Hlist & _).
  split; [exact H|]. split; [now rewrite Hlist|].
  vm_compute. repeat split; reflexivity.
Defined.

(** C7, as the claim states it, fails: a pass that discovers one session
    and a pass that discovers two print the same single line, so the line
    does not tell how many sessions were discovered. *)
Lemma summary_omits_discovered_count :
  let d1 := emitted (switch_all_konsoles env_one_session "Dark") [] in
  let d2 := emitted (switch_all_konsoles env_one_failure "Dark") [] in
  length (discovered d1) = 1%nat /\
  length (discovered d2) = 2%nat /\
  printed d1 = ["Switched 1 Konsole session(s) to 'Dark' profile"%string] /\
  printed d2 = printed d1.
Proof. vm_compute. repeat split; reflexivity. Qed.

(** C7, amended. Every pass prints exactly one line; it reports the number
    of sessions switched and the profile, and nothing else. *)
Theorem summary_reports_switched_count (env : Env) (profile : string)
    (tr : trace) :
  let d := emitted (switch_all_konsoles env profile) tr in
  switch_all_konsoles env profile tr = (Ok tt, tr ++ d) /\
  printed d =
    [("Switched " ++ Py.str_of_nat (switched d) ++ " Konsole session(s) to '"
        ++ profile ++ "' profile")%string].
Proof.
  destruct (switch_all_konsoles_facts env profile tr) as (Hrun & Hprint & _).
  split; [exact Hrun | exact Hprint].
Qed.

(** ** One reconciliation *)

Lemma update_konsolerc_default_profile_effects (env : Env) (profile : string)
    (tr : trace) :
  update_konsolerc_default_profile env profile tr =
    (Ok tt, tr ++ persist_effects env profile tr).
Proof. apply update_konsolerc_default_profile_run. Qed.

(** The two calls in sequence never raise and hand over to what follows. *)
Lemma reconcile_run {A : Type} (env : Env) (profile : string) (k : M A)
    (tr : trace) :
  (switch_all_konsoles env profile;;;
   update_konsolerc_default_profile env profile;;; k) tr =
  k (tr ++ reconcile_effects env profile tr).
Proof.
  destruct (switch_all_konsoles_facts env profile tr) as (Hrun & _).
  unfold bind, reconcile_effects. rewrite Hrun.
  rewrite update_konsolerc_default_profile_effects, <- app_assoc. reflexivity.
Qed.

Lemma persist_effects_facts (env : Env) (profile : string) (tr : trace) :
  let d := persist_effects env profile tr in
  switch_calls d = 0%nat /\
  persist_calls d = 1%nat /\
  map fst (runs "kwriteconfig6" d) = [kwriteconfig_argv env profile] /\
  apply_calls d = [] /\
  listing_calls d = [].
Proof.
  unfold persist_effects.
  destruct (returncode _ =? 0)%Z; repeat split; reflexivity.
Qed.

Lemma reconcile_effects_facts (env : Env) (profile : string) (tr : trace) :
  let d := reconcile_effects env profile tr in
  switch_calls d = 1%nat /\
  persist_calls d = 1%nat /\
  map fst (runs "kwriteconfig6" d) = [kwriteconfig_argv env profile] /\
  map fst (apply_calls d) = map (apply_argv_of profile) (discovered d).
Proof.
  destruct (switch_all_konsoles_facts env profile tr)
    as (_ & _ & Hs & Hk & Ha).
  set (ds := emitted (switch_all_konsoles env profile) tr) in *.
  destruct (persist_effects_facts env profile (tr ++ ds))
    as (Hs' & Hk' & Hw & Ha' & Hl').
  cbv zeta. unfold reconcile_effects. fold ds.
  rewrite switch_calls_app, persist_calls_app, runs_app, apply_calls_app,
    discovered_app, map_app, Hs, Hs', Hk', Hw, Ha', app_nil_r.
  unfold discovered at 2. rewrite Hl'. cbn [flat_map]. rewrite app_nil_r.
  unfold persist_calls in Hk. apply length_zero_iff_nil in Hk.
  rewrite Hk. repeat split; trivial.
  unfold persist_calls. now rewrite Hk.
Qed.

(** ** The handler *)

Lemma Qltb_true (x y : Q) : Qltb x y = true <-> x < y.
Proof.
  unfold Qltb. rewrite negb_true_iff, <- not_true_iff_false, Qle_bool_iff.
  split; [apply Qnot_le_lt | apply Qlt_not_le].
Qed.

Lemma Qltb_false (x y : Q) : Qltb x y = false <-> y <= x.
Proof. unfold Qltb. now rewrite negb_false_iff, Qle_bool_iff. Qed.

Lemma profile_eqb_true (profile : string) (last : option string) :
  profile_eqb profile last = true <-> last = Some profile.
Proof.
  destruct last as [p|]; simpl; [|split; discriminate].
  rewrite String.eqb_eq. split; [now intros -> | now intros [= ->]].
Qed.

Lemma process_event_qualifying (env : Env) (self : KdeGlobalsHandler)
    (ev : inotify_event) (now : Q) :
  _should_process ev = true ->
  process_event env self ev now = _debounced_switch env self now.
Proof.
  intros H. unfold process_event, process_IN_CLOSE_WRITE, process_IN_MOVED_TO.
  rewrite H. now destruct (mask ev).
Qed.

Lemma process_event_ignored (env : Env) (self : KdeGlobalsHandler)
    (ev : inotify_event) (now : Q) (tr : trace) :
  _should_process ev = false ->
  process_event env self ev now tr = (Ok self, tr).
Proof.
  intros H. unfold process_event, process_IN_CLOSE_WRITE, process_IN_MOVED_TO.
  rewrite H. now destruct (mask ev).
Qed.

(** Debounce gate: the event is dropped before anything is queried. *)
Lemma debounced_switch_discard (env : Env) (self : KdeGlobalsHandler) (now : Q)
    (tr : trace) :
  Qltb (now - _last_switch_time self) DEBOUNCE_SECONDS = true ->
  _debounced_switch env self now tr = (Ok self, tr).
Proof. intros H. unfold _debounced_switch. now rewrite H. Qed.

(** Change gate: only the appearance query has happened. *)
Lemma debounced_switch_suppress (env : Env) (self : KdeGlobalsHandler)
    (now : Q) (tr : trace) (profile : string) :
  Qltb (now - _last_switch_time self) DEBOUNCE_SECONDS = false ->
  fst (get_target_profile env tr) = Ok profile ->
  profile_eqb profile (_last_profile self) = true ->
  _debounced_switch env self now tr =
    (Ok self, tr ++ [Run kreadconfig_argv (respond env tr kreadconfig_argv)]).
Proof.
  intros Hgate Hres Hsame. unfold _debounced_switch. rewrite Hgate.
  unfold bind at 1. rewrite get_target_profile_run in Hres |- *.
  cbv zeta in Hres |- *. cbn [fst] in Hres. injection Hres as Hres.
  rewrite Hres, Hsame. reflexivity.
Qed.

(** Apply: the state is updated and one reconciliation follows. *)
Lemma debounced_switch_apply (env : Env) (self : KdeGlobalsHandler) (now : Q)
    (tr : trace) (profile : string) :
  Qltb (now - _last_switch_time self) DEBOUNCE_SECONDS = false ->
  fst (get_target_profile env tr) = Ok profile ->
  profile_eqb profile (_last_profile self) = false ->
  let tr1 := tr ++ [Run kreadconfig_argv (respond env tr kreadconfig_argv);
                    Print (changed_line profile)] in
  _debounced_switch env self now tr =
    (Ok {| _last_switch_time := now; _last_profile := Some profile |},
     tr1 ++ reconcile_effects env profile tr1).
Proof.
  intros Hgate Hres Hdiff tr1. unfold _debounced_switch. rewrite Hgate.
  unfold bind at 1. rewrite get_target_profile_run in Hres |- *.
  cbv zeta in Hres |- *. cbn [fst] in Hres. injection Hres as Hres.
  rewrite Hres, Hdiff. unfold bind at 1, print at 1.
  rewrite reconcile_run. unfold ret, tr1.
  rewrite <- !app_assoc. reflexivity.
Qed.

(** Every handled event ends in one of three ways, and at most one
    reconciliation comes of it. *)
Lemma debounced_switch_run (env : Env) (self : KdeGlobalsHandler) (now : Q)
    (tr : trace) :
  let d := emitted (_debounced_switch env self now) tr in
  let gate := Qltb (now - _last_switch_time self) DEBOUNCE_SECONDS in
  exists profile self',
    fst (get_target_profile env tr) = Ok profile /\
    _debounced_switch env self now tr = (Ok self', tr ++ d) /\
    (gate = true /\ self' = self /\ d = [] \/
     gate = false /\ profile_eqb profile (_last_profile self) = true /\
       self' = self /\ switch_calls d = 0%nat \/
     gate = false /\ profile_eqb profile (_last_profile self) = false /\
       self' = {| _last_switch_time := now; _last_profile := Some profile |} /\
       switch_calls d = 1%nat).
Proof.
  cbv zeta.
  pose proof (get_target_profile_run env tr) as Hres. cbv zeta in Hres.
  match type of Hres with _ = (Ok ?p, _) => set (profile := p) in * end.
  assert (Hfst : fst (get_target_profile env tr) = Ok profile)
    by now rewrite Hres.
  exists profile.
  destruct (Qltb (now - _last_switch_time self) DEBOUNCE_SECONDS) eqn:Hgate.
  - pose proof (debounced_switch_discard env self now tr Hgate) as Hrun.
    rewrite <- (app_nil_r tr) in Hrun at 2.
    exists self. rewrite (emitted_app _ _ _ _ Hrun).
    split; [exact Hfst|]. split; [exact Hrun|]. left. now repeat split.
  - destruct (profile_eqb profile (_last_profile self)) eqn:Hsame.
    + pose proof (debounced_switch_suppress env self now tr profile Hgate Hfst
                    Hsame) as Hrun.
      exists self. rewrite (emitted_app _ _ _ _ Hrun).
      split; [exact Hfst|]. split; [exact Hrun|]. right. left.
      now repeat split.
    + pose proof (debounced_switch_apply env self now tr profile Hgate Hfst
                    Hsame) as Hrun.
      cbv zeta in Hrun. rewrite <- app_assoc in Hrun.
      exists {| _last_switch_time := now; _last_profile := Some profile |}.
      rewrite (emitted_app _ _ _ _ Hrun).
      split; [exact Hfst|]. split; [exact Hrun|]. right. right.
      repeat split.
      rewrite switch_calls_app.
      match goal with |- context [reconcile_effects env profile ?t] =>
        destruct (reconcile_effects_facts env profile t) as (-> & _) end.
      reflexivity.
Qed.

(** C1. Whatever the handler's state, when a qualifying event passes the
    debounce gate and the resolved profile is the stored one, the state is
    left as it was and nothing happens beyond the appearance query itself:
    no call of [switch_all_konsoles], none of
    [update_konsolerc_default_profile], no line printed. *)
Theorem change_suppression (env : Env) (self : KdeGlobalsHandler)
    (ev : inotify_event) (now : Q) (tr : trace) (profile : string) :
  _should_process ev = true ->
  Qltb (now - _last_switch_time self) DEBOUNCE_SECONDS = false ->
  fst (get_target_profile env tr) = Ok profile ->
  _last_profile self = Some profile ->
  let d := emitted (process_event env self ev now) tr in
  process_event env self ev now tr = (Ok self, tr ++ d) /\
  d = [Run kreadconfig_argv (respond env tr kreadconfig_argv)] /\
  switch_calls d = 0%nat /\
  persist_calls d = 0%nat /\
  apply_calls d = [] /\
  printed d = [].
Proof.
  intros Hq Hgate Hres Hlast d. subst d.
  rewrite (process_event_qualifying env self ev now Hq).
  apply profile_eqb_true in Hlast.
  pose proof (debounced_switch_suppress env self now tr profile Hgate Hres
                Hlast) as Hrun.
  rewrite (emitted_app _ _ _ _ Hrun).
  split; [exact Hrun|]. repeat split.
Qed.

Lemma change_suppression_witness :
  let self := {| _last_switch_time := 3; _last_profile := Some "Dark"%string |} in
  process_event env_one_session self kdeglobals_replaced 10 [] =
    (Ok self,
     [Run kreadconfig_argv (respond env_one_session [] kreadconfig_argv)]).
Proof.
  intros self.
  destruct (change_suppression env_one_session self kdeglobals_replaced 10 []
              "Dark" eq_refl eq_refl eq_refl eq_refl) as (Hrun & Hd & _).
  rewrite Hrun, Hd. reflexivity.
Defined.

(** C2, as the claim states it, fails: after the start in Light, an event
    at time 10 finds the scheme unchanged and is dropped by the change
    gate without touching the time of the last switch; a second event a
    tenth of a unit later finds the scheme changed, reconciles and updates
    the state. *)
Lemma debounce_later_event_reconciles :
  let first := (kdeglobals_written, 10 # 1) in
  let second := (kdeglobals_replaced, 101 # 10) in
  snd second - snd first < DEBOUNCE_SECONDS /\
  _should_process (fst first) = true /\
  _should_process (fst second) = true /\
  fst (main env_scheme_flips [first] []) =
    Ok {| _last_switch_time := 0; _last_profile := Some "Light"%string |} /\
  switch_calls (emitted (main env_scheme_flips [first]) []) = 1%nat /\
  fst (main env_scheme_flips [first; second] []) =
    Ok {| _last_switch_time := 101 # 10; _last_profile := Some "Dark"%string |} /\
  switch_calls (emitted (main env_scheme_flips [first; second]) []) = 2%nat.
Proof. vm_compute. repeat split; reflexivity. Qed.

(** C2, amended. Take two qualifying events handled one after the other.
    If they are less than the window apart, at most one reconciliation
    comes of the two, and if the earlier one reconciled, the later one
    changes nothing at all. If they are at least the window apart and the
    last switch is not later than the earlier event, the later one passes
    the debounce gate and reconciles exactly when its resolved profile
    differs from the stored one. *)
Theorem debounce_window (env : Env) (self : KdeGlobalsHandler)
    (ev1 ev2 : inotify_event) (now1 now2 : Q) (tr : trace) :
  _should_process ev1 = true ->
  _should_process ev2 = true ->
  let d1 := emitted (process_event env self ev1 now1) tr in
  exists self1 self2 d2,
    process_event env self ev1 now1 tr = (Ok self1, tr ++ d1) /\
    process_event env self1 ev2 now2 (tr ++ d1) = (Ok self2, (tr ++ d1) ++ d2) /\
    (now2 - now1 < DEBOUNCE_SECONDS ->
       (switch_calls d1 + switch_calls d2 <= 1)%nat /\
       (switch_calls d1 <> 0%nat -> self2 = self1 /\ d2 = [])) /\
    (_last_switch_time self <= now1 ->
     DEBOUNCE_SECONDS <= now2 - now1 ->
     forall profile,
       fst (get_target_profile env (tr ++ d1)) = Ok profile ->
       switch_calls d2 =
         if profile_eqb profile (_last_profile self1) then 0%nat else 1%nat).
Proof.
  intros Hq1 Hq2 d1. subst d1.
  rewrite (process_event_qualifying env self ev1 now1 Hq1).
  destruct (debounced_switch_run env self now1 tr)
    as (p1 & self1 & _ & Hrun1 & Hcase1).
  cbv zeta in Hrun1, Hcase1.
  set (d1 := emitted (_debounced_switch env self now1) tr) in *.
  destruct (debounced_switch_run env self1 now2 (tr ++ d1))
    as (p2 & self2 & Hp2 & Hrun2 & Hcase2).
  cbv zeta in Hrun2, Hcase2.
  set (d2 := emitted (_debounced_switch env self1 now2) (tr ++ d1)) in *.
  exists self1, self2, d2.
  rewrite (process_event_qualifying env self1 ev2 now2 Hq2).
  split; [exact Hrun1|]. split; [exact Hrun2|].
  assert (Hsc1 : (switch_calls d1 <= 1)%nat).
  { destruct Hcase1 as [(_ & _ & ->) | [(_ & _ & _ & ->) | (_ & _ & _ & ->)]];
      [compute|idtac|idtac]; lia. }
  assert (Hsc2 : (switch_calls d2 <= 1)%nat).
  { destruct Hcase2 as [(_ & _ & ->) | [(_ & _ & _ & ->) | (_ & _ & _ & ->)]];
      [compute|idtac|idtac]; lia. }
  split.
  - intros Hnear.
    assert (Hafter : switch_calls d1 <> 0%nat -> self2 = self1 /\ d2 = []).
    { intros Hne.
      destruct Hcase1 as [(_ & _ & Hd) | [(_ & _ & _ & Hd) | (_ & _ & -> & _)]];
        [rewrite Hd in Hne; now elim Hne | rewrite Hd in Hne; now elim Hne |].
      cbn [_last_switch_time] in Hcase2.
      apply Qltb_true in Hnear.
      destruct Hcase2 as [(_ & -> & ->) | [(Hg & _) | (Hg & _)]];
        [now split | congruence | congruence]. }
    split; [|exact Hafter].
    destruct (Nat.eq_dec (switch_calls d1) 0) as [-> | Hne]; [exact Hsc2|].
    destruct (Hafter Hne) as (_ & Hd2). rewrite Hd2.
    change (switch_calls []) with 0%nat. lia.
  - intros Hmono Hfar profile Hprofile.
    assert (Hp : p2 = profile) by congruence. subst p2.
    assert (Hlast1 : _last_switch_time self1 <= now1).
    { destruct Hcase1 as [(_ & -> & _) | [(_ & _ & -> & _) | (_ & _ & -> & _)]];
        [exact Hmono | exact Hmono | apply Qle_refl]. }
    assert (Hgate : Qltb (now2 - _last_switch_time self1) DEBOUNCE_SECONDS = false).
    { apply Qltb_false. lra. }
    destruct Hcase2 as [(Hg & _) | [(_ & -> & _ & ->) | (_ & -> & _ & ->)]];
      [congruence | reflexivity | reflexivity].
Qed.

Lemma debounce_window_witness :
  let self := {| _last_switch_time := 0; _last_profile := Some "Light"%string |} in
  let self1 := {| _last_switch_time := 10; _last_profile := Some "Dark"%string |} in
  fst (process_event env_one_session self kdeglobals_written 10 []) = Ok self1 /\
  process_event env_one_session self1 kdeglobals_replaced (101 # 10)
      (snd (process_event env_one_session self kdeglobals_written 10 [])) =
    (Ok self1, snd (process_event env_one_session self kdeglobals_written 10 [])).
Proof.
  intros self self1.
  destruct (debounce_window env_one_session self kdeglobals_written
              kdeglobals_replaced 10 (101 # 10) [] eq_refl eq_refl)
    as (s1 & s2 & d2 & Hrun1 & Hrun2 & Hnear & _).
  assert (Hs1 : s1 = self1).
  { assert (H : fst (process_event env_one_session self kdeglobals_written 10 []) = Ok self1) by reflexivity.
    rewrite Hrun1 in H. now injection H. }
  destruct Hnear as (_ & Hafter); [reflexivity|].
  destruct Hafter as (Hs2 & Hd2); [vm_compute; discriminate|].
  subst s1 s2 d2. rewrite Hrun1. cbn [fst snd].
  split; [reflexivity|].
  rewrite app_nil_r in Hrun2. exact Hrun2.
Defined.

(** ** Persisting the default profile *)

(** C8. When the handler reconciles, [kwriteconfig6] runs exactly once and
    after every application, however many of them succeeded. The summary
    line is printed before that call and counts the successful
    applications; a failing write adds one line to the output and the
    handler returns normally with its state updated. *)
Theorem persist_default_once (env : Env) (self : KdeGlobalsHandler) (now : Q)
    (tr : trace) (profile : string) :
  Qltb (now - _last_switch_time self) DEBOUNCE_SECONDS = false ->
  fst (get_target_profile env tr) = Ok profile ->
  profile_eqb profile (_last_profile self) = false ->
  let d := emitted (_debounced_switch env self now) tr in
  exists pre res,
    _debounced_switch env self now tr =
      (Ok {| _last_switch_time := now; _last_profile := Some profile |},
       tr ++ d) /\
    d = pre ++ Run (kwriteconfig_argv env profile) res ::
          (if (returncode res =? 0)%Z then []
           else [Print (persist_failure_line env profile res)]) /\
    persist_calls pre = 0%nat /\
    persist_calls d = 1%nat /\
    apply_calls d = apply_calls pre /\
    map fst (apply_calls pre) = map (apply_argv_of profile) (discovered pre) /\
    printed pre = [changed_line profile; summary_line (switched pre) profile].
Proof.
  intros Hgate Hres Hdiff d. subst d.
  pose proof (debounced_switch_apply env self now tr profile Hgate Hres Hdiff)
    as Hrun.
  cbv zeta in Hrun. rewrite <- app_assoc in Hrun.
  rewrite (emitted_app _ _ _ _ Hrun).
  set (head := [Run kreadconfig_argv (respond env tr kreadconfig_argv);
                Print (changed_line profile)]) in *.
  destruct (switch_all_konsoles_facts env profile (tr ++ head))
    as (_ & Hprint & _ & Hk & Ha).
  set (ds := emitted (switch_all_konsoles env profile) (tr ++ head)) in *.
  exists (head ++ ds), (respond env ((tr ++ head) ++ ds) (kwriteconfig_argv env profile)).
  split; [exact Hrun|].
  unfold reconcile_effects. fold ds. unfold persist_effects.
  set (res := respond env ((tr ++ head) ++ ds) (kwriteconfig_argv env profile)).
  split; [now rewrite <- app_assoc|].
  assert (Hpre : persist_calls (head ++ ds) = 0%nat)
    by (rewrite persist_calls_app, Hk; reflexivity).
  split; [exact Hpre|].
  split.
  { rewrite app_assoc, persist_calls_app, Hpre.
    destruct (returncode res =? 0)%Z; reflexivity. }
  split.
  { rewrite app_assoc, apply_calls_app.
    destruct (returncode res =? 0)%Z; cbn; now rewrite app_nil_r. }
  split.
  { rewrite apply_calls_app, discovered_app. exact Ha. }
  rewrite printed_app, switched_app, Hprint. reflexivity.
Qed.

Lemma persist_default_once_witness :
  let self := {| _last_switch_time := 0; _last_profile := Some "Light"%string |} in
  fst (_debounced_switch env_persist_fails self 10 []) =
    Ok {| _last_switch_time := 10; _last_profile := Some "Dark"%string |} /\
  printed (emitted (_debounced_switch env_persist_fails self 10) []) =
    ["KDE theme changed. Switching to 'Dark' profile...";
     "Switched 1 Konsole session(s) to 'Dark' profile";
     "Failed to update konsolerc: non-zero exit status 1"]%string /\
  persist_calls (emitted (_debounced_switch env_persist_fails self 10) []) = 1%nat.
Proof.
  intros self.
  destruct (persist_default_once env_persist_fails self 10 [] "Dark"
              eq_refl eq_refl eq_refl)
    as (pre & res & Hrun & _ & _ & Hk & _).
  rewrite Hrun. split; [reflexivity|]. split; [|exact Hk].
  vm_compute. reflexivity.
Defined.

(** ** Start of the process *)

Lemma main_before_loop_run (env : Env) (tr : trace) :
  let tr0 := tr ++ [Print "Konsole Theme Switcher starting..."] in
  exists profile,
    fst (get_target_profile env tr0) = Ok profile /\
    let tr1 := tr0 ++ [Run kreadconfig_argv (respond env tr0 kreadconfig_argv);
                       Print (detected_line profile)] in
    main_before_loop env tr =
      (Ok {| _last_switch_time := 0; _last_profile := Some profile |},
       (tr1 ++ reconcile_effects env profile tr1) ++
         [Print ("Watching " ++ KDEGLOBALS_PATH env ++ " for changes...")%string]).
Proof.
  cbv zeta.
  pose proof (get_target_profile_run env
                (tr ++ [Print "Konsole Theme Switcher starting..."])) as Hres.
  cbv zeta in Hres.
  match type of Hres with _ = (Ok ?p, _) => set (profile := p) in * end.
  exists profile. split; [now rewrite Hres|].
  unfold main_before_loop. unfold bind at 1, print at 1.
  unfold bind at 1. rewrite Hres. unfold bind at 1, print at 1.
  rewrite reconcile_run. unfold bind, print, ret.
  rewrite <- !app_assoc. reflexivity.
Qed.



(** * Further properties of the script *)

(** ** The event filter *)

(** X1. Events that do not name the watched file are dropped before anything
    else happens: a run of the loop is the run over the qualifying events. *)
Theorem notifier_loop_skips_other_files (env : Env)
    (events : list (inotify_event * Q)) :
  forall (self : KdeGlobalsHandler) (tr : trace),
  notifier_loop env self events tr =
    notifier_loop env self (filter qualifying events) tr.
Proof.
  induction events as [|[ev now] rest IH]; intros self tr; [reflexivity|].
  cbn [filter]. unfold qualifying at 1. cbn [fst].
  destruct (_should_process ev) eqn:Hq.
  - cbn [notifier_loop]. unfold bind.
    destruct (process_event env self ev now tr) as [[self1|e] tr1];
      [apply IH | reflexivity].
  - cbn [notifier_loop]. unfold bind at 1.
    rewrite (process_event_ignored env self ev now tr Hq). apply IH.
Qed.

(** ** The dark classification *)

Lemma lower_char_idempotent (c : ascii) :
  Py.lower_char (Py.lower_char c) = Py.lower_char c.
Proof.
  destruct c as [[] [] [] [] [] [] [] []]; reflexivity.
Qed.

Lemma lower_idempotent (s : string) : Py.lower (Py.lower s) = Py.lower s.
Proof.
  induction s as [|c s IH]; simpl; [reflexivity|].
  now rewrite lower_char_idempotent, IH.
Qed.

Lemma lower_app (a b : string) :
  Py.lower (a ++ b) = (Py.lower a ++ Py.lower b)%string.
Proof. induction a as [|c a IH]; simpl; [reflexivity | now rewrite IH]. Qed.

Lemma string_app_assoc (a b c : string) :
  ((a ++ b) ++ c = a ++ (b ++ c))%string.
Proof. induction a as [|x a IH]; simpl; [reflexivity | now rewrite IH]. Qed.

(** X2. On names in the ASCII range, the text of this model: lowercasing
    a name, dark or not, does not change its class, and a name that is
    dark stays dark when text is put before and after it. *)
Theorem dark_scheme_embedding (scheme before after : string) :
  is_dark_scheme (Py.lower scheme) = is_dark_scheme scheme /\
  (is_dark_scheme scheme = true ->
   is_dark_scheme (before ++ scheme ++ after) = true).
Proof.
  split.
  - unfold is_dark_scheme. now rewrite lower_idempotent.
  - rewrite !is_dark_scheme_iff.
    intros (k & Hin & pre & post & Hk).
    exists k. split; [exact Hin|].
    exists (Py.lower before ++ pre)%string, (post ++ Py.lower after)%string.
    rewrite !lower_app, Hk, !string_app_assoc. reflexivity.
Qed.

Lemma dark_scheme_embedding_witness :
  is_dark_scheme "Nord" = true /\
  is_dark_scheme "ArcNordic-v2" = true /\
  is_dark_scheme (Py.lower "BreezeLight") = is_dark_scheme "BreezeLight".
Proof.
  split; [reflexivity|]. split.
  - exact (proj2 (dark_scheme_embedding "Nord" "Arc" "ic-v2") eq_refl).
  - exact (proj1 (dark_scheme_embedding "BreezeLight" "" "")).
Defined.

(** ** Discovery and application *)

Lemma session_lines_below_sessions (res : CompletedProcess) :
  Forall (fun line => Py.startswith line "/Sessions/" = true)
         (session_lines res).
Proof.
  unfold session_lines. destruct (returncode res =? 0)%Z; [|constructor].
  apply Forall_forall. intros line Hin. now apply filter_In in Hin.
Qed.

Lemma discovered_below_sessions (tr : trace) :
  Forall (fun target => Py.startswith (snd target) "/Sessions/" = true)
         (discovered tr).
Proof.
  unfold discovered. apply Forall_forall. intros [service session] Hin.
  apply in_flat_map in Hin. destruct Hin as ([argv res] & _ & Hin).
  unfold targets_of in Hin. cbn [fst snd] in Hin.
  destruct argv as [|a [|b [|c [|]]]]; try destruct Hin.
  apply in_map_iff in Hin. destruct Hin as (line & [= _ <-] & Hin).
  pose proof (session_lines_below_sessions res) as Hall.
  rewrite Forall_forall in Hall. now apply Hall.
Qed.

(** X3. Every [setProfile] call of a pass goes to a path below [/Sessions/]
    and carries the requested profile; the other lines of a listing are
    never addressed. *)
Theorem switch_all_konsoles_applies_to_sessions_only (env : Env)
    (profile : string) (tr : trace) :
  Forall (session_apply profile)
         (apply_calls (emitted (switch_all_konsoles env profile) tr)).
Proof.
  destruct (switch_all_konsoles_facts env profile tr) as (_ & _ & _ & _ & Ha).
  set (d := emitted (switch_all_konsoles env profile) tr) in *.
  apply Forall_forall. intros call Hin.
  apply (in_map fst) in Hin. rewrite Ha in Hin.
  apply in_map_iff in Hin. destruct Hin as ([service session] & Hargv & Hin).
  pose proof (discovered_below_sessions d) as Hall.
  rewrite Forall_forall in Hall.
  exists service, session. split; [now rewrite <- Hargv | exact (Hall _ Hin)].
Qed.

Lemma pids_of_lines_parsed (lines : list string) (tr : trace) :
  forall pids,
  Forall2 (fun line pid => Py.int line = Some pid)
          (filter (fun line => negb (String.eqb line "")) lines) pids ->
  pids_of_lines lines tr = (Ok pids, tr).
Proof.
  induction lines as [|line rest IH]; intros pids H; cbn [pids_of_lines filter] in *.
  - inversion H. reflexivity.
  - destruct (String.eqb line ""); cbn [negb] in H; [now apply IH|].
    inversion H as [|? pid ? pids' Hint Hrest]; subst.
    rewrite Hint. unfold bind. now rewrite (IH pids' Hrest).
Qed.

(** X4. When [pgrep] succeeds and every non-empty line of its output is an
    integer, the identifiers come back in the order of the lines; blank
    lines are skipped. *)
Theorem get_konsole_pids_parses (env : Env) (tr : trace) (pids : list Z) :
  let res := respond env tr pgrep_argv in
  returncode res = 0%Z ->
  Forall2 (fun line pid => Py.int line = Some pid)
          (filter (fun line => negb (String.eqb line ""))
                  (Py.split_lines (Py.strip (stdout res))))
          pids ->
  get_konsole_pids env tr = (Ok pids, tr ++ [Run pgrep_argv res]).
Proof.
  intros res Hexit Hlines.
  unfold get_konsole_pids, bind, try_except, subprocess_run, ret. simpl.
  fold res. rewrite Hexit. simpl.
  now rewrite (pids_of_lines_parsed _ _ _ Hlines).
Qed.

Lemma get_konsole_pids_parses_witness :
  fst (get_konsole_pids
         (env_of (fun _ _ =>
            completed (String "010" (text_of_lines [" 101"; ""; "+1_02"]))))
         []) = Ok [101; 102]%Z.
Proof.
  rewrite (get_konsole_pids_parses _ [] [101; 102]%Z).
  - reflexivity.
  - reflexivity.
  - repeat constructor.
Defined.

Lemma get_konsole_pids_exit (env : Env) (tr : trace) :
  let res := respond env tr pgrep_argv in
  returncode res <> 0%Z ->
  get_konsole_pids env tr = (Ok [], tr ++ [Run pgrep_argv res]).
Proof.
  intros res Hexit.
  unfold get_konsole_pids, bind, try_except, subprocess_run, ret. simpl.
  fold res. destruct (returncode res =? 0)%Z eqn:E; [|reflexivity].
  apply Z.eqb_eq in E. contradiction.
Qed.

(** X5. With no terminal running ([pgrep] exits with a non-zero status) a pass
    asks nothing else and reports zero sessions. *)
Theorem switch_all_konsoles_without_instances (env : Env) (profile : string)
    (tr : trace) :
  let res := respond env tr pgrep_argv in
  returncode res <> 0%Z ->
  switch_all_konsoles env profile tr =
    (Ok tt,
     tr ++ [Run pgrep_argv res;
            Print ("Switched 0 Konsole session(s) to '" ++ profile
                     ++ "' profile")%string]).
Proof.
  intros res Hexit. unfold switch_all_konsoles, bind.
  rewrite (get_konsole_pids_exit env tr Hexit). fold res.
  cbn [for_each]. unfold ret, print. rewrite <- app_assoc. reflexivity.
Qed.

Lemma switch_all_konsoles_without_instances_witness :
  printed (snd (switch_all_konsoles env_dark "Dark" [])) =
    ["Switched 0 Konsole session(s) to 'Dark' profile"%string].
Proof.
  rewrite (switch_all_konsoles_without_instances env_dark "Dark" []).
  - reflexivity.
  - vm_compute. discriminate.
Defined.

(** ** The unconditional handler *)

Lemma on_kdeglobals_changed_run (env : Env) (tr : trace) :
  exists profile,
    fst (get_target_profile env tr) = Ok profile /\
    let tr1 := tr ++ [Run kreadconfig_argv (respond env tr kreadconfig_argv);
                      Print (changed_line profile)] in
    on_kdeglobals_changed env tr =
      (Ok tt, tr1 ++ reconcile_effects env profile tr1).
Proof.
  pose proof (get_target_profile_run env tr) as Hres. cbv zeta in Hres.
  match type of Hres with _ = (Ok ?p, _) => set (profile := p) in * end.
  exists profile. split; [now rewrite Hres|]. cbv zeta.
  unfold on_kdeglobals_changed. unfold bind at 1. rewrite Hres.
  unfold bind at 1, print at 1. unfold bind.
  set (tr1 := (tr ++ [Run kreadconfig_argv (respond env tr kreadconfig_argv)])
                ++ [Print (changed_line profile)]).
  destruct (switch_all_konsoles_facts env profile tr1) as (Hsw & _).
  rewrite Hsw, update_konsolerc_default_profile_effects.
  unfold reconcile_effects. subst tr1. rewrite <- !app_assoc. reflexivity.
Qed.

(** X6. In an environment, that is where every command is started and
    answers, [on_kdeglobals_changed] makes one pass over the terminals and
    one write of the default, with no look at the clock or at the state of
    a handler. When the handler does reconcile, it does exactly what
    [on_kdeglobals_changed] does from the same history. *)
Theorem on_kdeglobals_changed_reconciles (env : Env) (tr : trace) :
  let d := emitted (on_kdeglobals_changed env) tr in
  snd (on_kdeglobals_changed env tr) = tr ++ d /\
  switch_calls d = 1%nat /\
  persist_calls d = 1%nat /\
  forall (self : KdeGlobalsHandler) (now : Q) (profile : string),
    Qltb (now - _last_switch_time self) DEBOUNCE_SECONDS = false ->
    fst (get_target_profile env tr) = Ok profile ->
    profile_eqb profile (_last_profile self) = false ->
    _debounced_switch env self now tr =
      (Ok {| _last_switch_time := now; _last_profile := Some profile |},
       tr ++ d).
Proof.
  destruct (on_kdeglobals_changed_run env tr) as (profile & Hres & Hrun).
  cbv zeta in Hrun |- *. rewrite <- app_assoc in Hrun.
  rewrite (emitted_app _ _ _ _ Hrun). split; [now rewrite Hrun|].
  match goal with |- context [reconcile_effects env profile ?t] =>
    destruct (reconcile_effects_facts env profile t) as (Hs & Hk & _) end.
  split; [rewrite switch_calls_app, Hs; reflexivity|].
  split; [rewrite persist_calls_app, Hk; reflexivity|].
  intros self now profile' Hgate Hres' Hdiff.
  assert (profile' = profile) by congruence. subst profile'.
  rewrite (debounced_switch_apply env self now tr profile Hgate Hres Hdiff).
  now rewrite <- app_assoc.
Qed.

Lemma on_kdeglobals_changed_reconciles_witness :
  snd (_debounced_switch env_one_failure
         {| _last_switch_time := 0; _last_profile := None |} 7 []) =
  snd (on_kdeglobals_changed env_one_failure []).
Proof.
  destruct (on_kdeglobals_changed_reconciles env_one_failure [])
    as (Hrun & _ & _ & Hsame).
  rewrite (Hsame {| _last_switch_time := 0; _last_profile := None |} 7
             "Dark"%string eq_refl eq_refl eq_refl), Hrun.
  reflexivity.
Defined.

(** ** Environments that do not look at the history *)

Lemma history_free_ret {A : Type} (a : A) : history_free (ret a).
Proof. intros tr tr'. exists (Ok a), []. now rewrite !app_nil_r. Qed.

Lemma history_free_raise {A : Type} (e : exn) : history_free (@raise A e).
Proof. intros tr tr'. exists (Raise e), []. now rewrite !app_nil_r. Qed.

Lemma history_free_print (line : string) : history_free (print line).
Proof. intros tr tr'. exists (Ok tt), [Print line]. now split. Qed.

Lemma history_free_bind {A B : Type} (m : M A) (k : A -> M B) :
  history_free m -> (forall a, history_free (k a)) -> history_free (bind m k).
Proof.
  intros Hm Hk tr tr'. destruct (Hm tr tr') as ([a|e] & d & H1 & H2).
  - destruct (Hk a (tr ++ d) (tr' ++ d)) as (r & d' & H3 & H4).
    exists r, (d ++ d'). unfold bind. rewrite H1, H2, H3, H4, !app_assoc.
    now split.
  - exists (Raise e), d. unfold bind. rewrite H1, H2. now split.
Qed.

Lemma history_free_try_except {A : Type} (m : M A) (handles : exn -> bool)
    (h : exn -> M A) :
  history_free m -> (forall e, history_free (h e)) ->
  history_free (try_except m handles h).
Proof.
  intros Hm Hh tr tr'. destruct (Hm tr tr') as ([a|e] & d & H1 & H2).
  - exists (Ok a), d. unfold try_except. rewrite H1, H2. now split.
  - unfold try_except. rewrite H1, H2. destruct (handles e).
    + destruct (Hh e (tr ++ d) (tr' ++ d)) as (r & d' & H3 & H4).
      exists r, (d ++ d'). rewrite H3, H4, !app_assoc. now split.
    + exists (Raise e), d. now split.
Qed.

Lemma history_free_for_each {X S : Type} (body : X -> S -> M S)
    (xs : list X) :
  (forall x acc, history_free (body x acc)) ->
  forall acc, history_free (for_each xs acc body).
Proof.
  intros Hbody. induction xs as [|x rest IH]; intros acc; cbn [for_each].
  - apply history_free_ret.
  - apply history_free_bind; [apply Hbody | exact IH].
Qed.

Lemma history_free_subprocess_run (env : Env) (argv : list string)
    (check : bool) :
  history_independent env -> history_free (subprocess_run env argv check).
Proof.
  intros Henv tr tr'. unfold subprocess_run. rewrite (Henv tr' tr argv).
  destruct (check && negb (returncode (respond env tr argv) =? 0)%Z);
    eexists _, [Run argv (respond env tr argv)]; now split.
Qed.

Lemma history_free_pids_of_lines (lines : list string) :
  history_free (pids_of_lines lines).
Proof.
  induction lines as [|pid rest IH]; cbn [pids_of_lines].
  - apply history_free_ret.
  - destruct (String.eqb pid ""); [exact IH|].
    destruct (Py.int pid); [|apply history_free_raise].
    apply history_free_bind; [exact IH | intros; apply history_free_ret].
Qed.

Lemma history_free_switch_all_konsoles (env : Env) (profile : string) :
  history_independent env -> history_free (switch_all_konsoles env profile).
Proof.
  intros Henv. unfold switch_all_konsoles.
  apply history_free_bind.
  { unfold get_konsole_pids. apply history_free_bind.
    - apply history_free_try_except; [|intros; apply history_free_ret].
      apply history_free_bind; [now apply history_free_subprocess_run|].
      intros res. destruct (returncode res =? 0)%Z; [|apply history_free_ret].
      apply history_free_bind; [apply history_free_pids_of_lines|].
      intros; apply history_free_ret.
    - intros [pids|]; apply history_free_ret. }
  intros pids. apply history_free_bind; [|intros; apply history_free_print].
  apply history_free_for_each. intros pid count. unfold switch_instance.
  apply history_free_bind.
  { unfold get_konsole_sessions.
    apply history_free_try_except; [|intros; apply history_free_ret].
    apply history_free_bind; [now apply history_free_subprocess_run|].
    intros; apply history_free_ret. }
  intros sessions. apply history_free_for_each. intros session count'.
  unfold switch_session. apply history_free_bind; [|intros; apply history_free_ret].
  unfold set_session_profile.
  apply history_free_try_except; [|intros; apply history_free_ret].
  apply history_free_bind; [now apply history_free_subprocess_run|].
  intros; apply history_free_ret.
Qed.

(** X7. When the answers of the outside world do not depend on the history,
    a pass does the same calls, gets the same answers and reports the same
    count from whatever history it starts; in particular a second pass
    right after the first repeats it. *)
Theorem switch_all_konsoles_repeatable (env : Env) (profile : string)
    (tr tr' : trace) :
  history_independent env ->
  let d := emitted (switch_all_konsoles env profile) tr in
  emitted (switch_all_konsoles env profile) tr' = d /\
  (switch_all_konsoles env profile;;; switch_all_konsoles env profile) tr =
    (Ok tt, tr ++ d ++ d).
Proof.
  intros Henv d.
  assert (Hany : forall t, switch_all_konsoles env profile t = (Ok tt, t ++ d)).
  { intros t.
    destruct (history_free_switch_all_konsoles env profile Henv tr t)
      as (r & d0 & H1 & H2).
    destruct (switch_all_konsoles_facts env profile tr) as (Hrun & _).
    fold d in Hrun. rewrite Hrun in H1.
    injection H1 as Hr Hd. apply app_inv_head in Hd. subst r d0. exact H2. }
  split.
  - exact (emitted_app _ _ _ _ (Hany tr')).
  - unfold bind. rewrite (Hany tr), (Hany (tr ++ d)), <- app_assoc. reflexivity.
Qed.

Lemma switch_all_konsoles_repeatable_witness :
  history_independent env_one_failure /\
  printed (snd ((switch_all_konsoles env_one_failure "Dark";;;
                 switch_all_konsoles env_one_failure "Dark") [])) =
    ["Switched 1 Konsole session(s) to 'Dark' profile";
     "Switched 1 Konsole session(s) to 'Dark' profile"]%string.
Proof.
  assert (H : history_independent env_one_failure)
    by (intros tr tr' argv; reflexivity).
  split; [exact H|].
  destruct (switch_all_konsoles_repeatable env_one_failure "Dark" [] [] H)
    as (_ & Htwice).
  rewrite Htwice. reflexivity.
Defined.

(** ** Whole runs of the loop *)

Lemma notifier_loop_cons (env : Env) (self : KdeGlobalsHandler)
    (ev : inotify_event) (now : Q) (rest : list (inotify_event * Q))
    (tr : trace) :
  notifier_loop env self ((ev, now) :: rest) tr =
    match process_event env self ev now tr with
    | (Ok self1, tr1) => notifier_loop env self1 rest tr1
    | (Raise e, tr1) => (Raise e, tr1)
    end.
Proof. reflexivity. Qed.

Lemma known_profile_resolved (env : Env) (tr : trace) (profile : string) :
  fst (get_target_profile env tr) = Ok profile -> known_profile profile.
Proof.
  rewrite get_target_profile_run. cbv zeta. cbn [fst].
  destruct (is_dark_scheme _); intros [= <-]; [right | left]; reflexivity.
Qed.

(** An event either leaves the handler alone and reconciles nothing, or
    passes the debounce gate, stores its time and one of the two profiles
    and reconciles once. *)
Lemma process_event_run (env : Env) (self : KdeGlobalsHandler)
    (ev : inotify_event) (now : Q) (tr : trace) :
  exists self' d,
    process_event env self ev now tr = (Ok self', tr ++ d) /\
    (self' = self /\ switch_calls d = 0%nat /\ persist_calls d = 0%nat /\
       runs "kwriteconfig6" d = [] \/
     _should_process ev = true /\
     Qltb (now - _last_switch_time self) DEBOUNCE_SECONDS = false /\
     exists profile,
       known_profile profile /\
       self' = {| _last_switch_time := now; _last_profile := Some profile |} /\
       switch_calls d = 1%nat /\ persist_calls d = 1%nat /\
       map fst (runs "kwriteconfig6" d) = [kwriteconfig_argv env profile]).
Proof.
  destruct (_should_process ev) eqn:Hq.
  - rewrite (process_event_qualifying env self ev now Hq).
    pose proof (get_target_profile_run env tr) as Hres. cbv zeta in Hres.
    match type of Hres with _ = (Ok ?p, _) => set (profile := p) in * end.
    assert (Hfst : fst (get_target_profile env tr) = Ok profile)
      by now rewrite Hres.
    destruct (Qltb (now - _last_switch_time self) DEBOUNCE_SECONDS) eqn:Hgate.
    + exists self, []. rewrite app_nil_r.
      split; [now apply debounced_switch_discard|]. left. now repeat split.
    + destruct (profile_eqb profile (_last_profile self)) eqn:Hsame.
      * exists self, [Run kreadconfig_argv (respond env tr kreadconfig_argv)].
        split; [now apply (debounced_switch_suppress env self now tr profile)|].
        left. now repeat split.
      * pose proof (debounced_switch_apply env self now tr profile Hgate Hfst
                      Hsame) as Hrun.
        cbv zeta in Hrun. rewrite <- app_assoc in Hrun.
        eexists _, _. split; [exact Hrun|]. right.
        split; [reflexivity|]. split; [reflexivity|].
        exists profile. split; [exact (known_profile_resolved _ _ _ Hfst)|].
        split; [reflexivity|].
        match goal with |- context [reconcile_effects env profile ?t] =>
          destruct (reconcile_effects_facts env profile t)
            as (Hs & Hk & Hw & _) end.
        rewrite switch_calls_app, persist_calls_app, runs_app, map_app, Hs, Hk, Hw.
        now repeat split.
  - exists self, []. rewrite app_nil_r.
    split; [now apply process_event_ignored|]. left. now repeat split.
Qed.

(** Once the handler has switched inside a window, every later event of
    that window is dropped without any effect. *)
Lemma notifier_loop_quiet (env : Env) (a : Q)
    (events : list (inotify_event * Q)) :
  forall (self : KdeGlobalsHandler) (tr : trace),
  a <= _last_switch_time self ->
  Forall (fun e => a <= snd e /\ snd e - a < DEBOUNCE_SECONDS) events ->
  notifier_loop env self events tr = (Ok self, tr).
Proof.
  induction events as [|[ev now] rest IH]; intros self tr Hlast Hall;
    [reflexivity|].
  inversion Hall as [|? ? [Hlo Hhi] Hrest]; subst. cbn [snd] in Hlo, Hhi.
  rewrite notifier_loop_cons.
  destruct (_should_process ev) eqn:Hq.
  - rewrite (process_event_qualifying env self ev now Hq).
    rewrite debounced_switch_discard; [now apply IH|].
    apply Qltb_true. lra.
  - rewrite (process_event_ignored env self ev now tr Hq). now apply IH.
Qed.

(** X8. A burst of events whose clock readings all lie in one interval
    shorter than the debounce window causes at most one reconciliation,
    whatever the state of the handler and whatever the answers of the
    outside world; the loop does not raise. *)
Theorem burst_reconciles_at_most_once (env : Env) (a : Q)
    (events : list (inotify_event * Q)) (self : KdeGlobalsHandler)
    (tr : trace) :
  Forall (fun e => a <= snd e /\ snd e - a < DEBOUNCE_SECONDS) events ->
  let d := emitted (notifier_loop env self events) tr in
  exists self',
    notifier_loop env self events tr = (Ok self', tr ++ d) /\
    (switch_calls d <= 1)%nat /\
    (persist_calls d <= 1)%nat.
Proof.
  intros Hall. cbv zeta.
  assert (H : exists self' d,
            notifier_loop env self events tr = (Ok self', tr ++ d) /\
            (switch_calls d <= 1)%nat /\ (persist_calls d <= 1)%nat).
  { revert self tr. induction events as [|[ev now] rest IH]; intros self tr.
    - exists self, []. rewrite app_nil_r. repeat split; compute; lia.
    - inversion Hall as [|? ? [Hlo Hhi] Hrest]; subst. cbn [snd] in Hlo, Hhi.
      rewrite notifier_loop_cons.
      destruct (process_event_run env self ev now tr)
        as (self1 & d1 & Hrun & Hcase).
      rewrite Hrun.
      destruct Hcase as [(-> & Hs & Hk & _) | (_ & _ & p & _ & -> & Hs & Hk & _)].
      + destruct (IH Hrest self (tr ++ d1)) as (self' & d' & Hloop & Hs' & Hk').
        exists self', (d1 ++ d'). rewrite Hloop, app_assoc.
        rewrite switch_calls_app, persist_calls_app, Hs, Hk. now repeat split.
      + rewrite (notifier_loop_quiet env a rest
                   {| _last_switch_time := now; _last_profile := Some p |}
                   (tr ++ d1) Hlo Hrest).
        eexists _, d1. rewrite Hs, Hk. repeat split; lia. }
  destruct H as (self' & d & Hloop & Hs & Hk).
  exists self'. rewrite (emitted_app _ _ _ _ Hloop). now repeat split.
Qed.

Lemma burst_reconciles_at_most_once_witness :
  let burst := [(kdeglobals_written, 100 # 1); (kdeglobals_replaced, 1001 # 10);
                (kdeglobals_written, 1004 # 10)] in
  switch_calls
    (emitted (notifier_loop env_scheme_flips KdeGlobalsHandler_init burst) [])
    = 1%nat.
Proof.
  intros burst.
  assert (Hall : Forall (fun e => 100 # 1 <= snd e /\
                                  snd e - (100 # 1) < DEBOUNCE_SECONDS) burst).
  { repeat constructor; vm_compute; congruence. }
  destruct (burst_reconciles_at_most_once env_scheme_flips (100 # 1) burst
              KdeGlobalsHandler_init [] Hall) as (self' & _ & Hs & _).
  assert (H1 : (1 <= switch_calls
                  (emitted (notifier_loop env_scheme_flips
                              KdeGlobalsHandler_init burst) []))%nat)
    by (vm_compute; lia).
  lia.
Defined.

Lemma known_persist_single (env : Env) (profile : string)
    (calls : list (list string * CompletedProcess)) :
  known_profile profile ->
  map fst calls = [kwriteconfig_argv env profile] ->
  Forall (known_persist env) calls.
Proof.
  intros Hknown Hcalls.
  destruct calls as [|c [|c' rest]]; try discriminate.
  injection Hcalls as Hc. constructor; [|constructor].
  unfold known_persist. rewrite Hc. destruct Hknown as [-> | ->]; auto.
Qed.

(** What a run of the loop adds up to: it never raises, every
    reconciliation comes with exactly one write of the default, there are
    no more reconciliations than qualifying events, only the two known
    profiles are written, and the stored profile is either untouched or
    one of the two. *)
Lemma notifier_loop_run (env : Env) (events : list (inotify_event * Q)) :
  forall (self : KdeGlobalsHandler) (tr : trace),
  exists self' d,
    notifier_loop env self events tr = (Ok self', tr ++ d) /\
    switch_calls d = persist_calls d /\
    (switch_calls d <= length (filter qualifying events))%nat /\
    Forall (known_persist env) (runs "kwriteconfig6" d) /\
    (_last_profile self' = _last_profile self \/
     exists profile, known_profile profile /\
                     _last_profile self' = Some profile).
Proof.
  induction events as [|[ev now] rest IH]; intros self tr.
  - exists self, []. rewrite app_nil_r.
    repeat split; auto.
  - rewrite notifier_loop_cons.
    destruct (process_event_run env self ev now tr)
      as (self1 & d1 & Hrun & Hcase).
    rewrite Hrun.
    destruct (IH self1 (tr ++ d1)) as (self' & d' & Hloop & Heq & Hle & Hw & Hp).
    exists self', (d1 ++ d'). rewrite Hloop, app_assoc.
    rewrite switch_calls_app, persist_calls_app, runs_app.
    cbn [filter]. unfold qualifying at 1. cbn [fst].
    split; [reflexivity|].
    destruct Hcase
      as [(-> & Hs & Hk & Hr) | (Hq & _ & p & Hknown & -> & Hs & Hk & Hr)].
    + rewrite Hs, Hk, Hr. repeat split; trivial.
      destruct (_should_process ev); cbn [length]; lia.
    + rewrite Hs, Hk, Hq. cbn [length]. repeat split; try lia.
      * apply Forall_app. split; [|exact Hw].
        exact (known_persist_single env p _ Hknown Hr).
      * right. destruct Hp as [Hp | Hp]; [|exact Hp].
        exists p. split; [exact Hknown | exact Hp].
Qed.

(** [main] is the start, the loop and the farewell. *)
Lemma main_run (env : Env) (events : list (inotify_event * Q)) (tr : trace)
    (profile : string) (start d' : trace) (handler : KdeGlobalsHandler) :
  main_before_loop env tr =
    (Ok {| _last_switch_time := 0; _last_profile := Some profile |},
     tr ++ start) ->
  notifier_loop env {| _last_switch_time := 0; _last_profile := Some profile |}
    events (tr ++ start) = (Ok handler, (tr ++ start) ++ d') ->
  main env events tr =
    (Ok handler,
     tr ++ start ++ d' ++ [Print (String "010" "Shutting down...")]).
Proof.
  intros Hstart Hloop. unfold main. unfold bind at 1. rewrite Hstart.
  unfold bind at 1. rewrite Hloop. unfold bind, print, ret.
  rewrite <- !app_assoc. reflexivity.
Qed.

(** The start reconciles once with one of the two profiles. *)
Lemma main_before_loop_facts (env : Env) (tr : trace) :
  exists profile start,
    fst (get_target_profile env
           (tr ++ [Print "Konsole Theme Switcher starting..."])) = Ok profile /\
    known_profile profile /\
    main_before_loop env tr =
      (Ok {| _last_switch_time := 0; _last_profile := Some profile |},
       tr ++ start) /\
    switch_calls start = 1%nat /\
    persist_calls start = 1%nat /\
    map fst (runs "kwriteconfig6" start) = [kwriteconfig_argv env profile].
Proof.
  destruct (main_before_loop_run env tr) as (profile & Hres & Hstart).
  cbv zeta in Hstart. rewrite <- !app_assoc in Hstart.
  exists profile. eexists. split; [exact Hres|].
  split; [exact (known_profile_resolved _ _ _ Hres)|].
  split; [exact Hstart|].
  match goal with |- context [reconcile_effects env profile ?t] =>
    destruct (reconcile_effects_facts env profile t) as (Hs & Hk & Hw & _) end.
  change (?a :: ?b :: ?c :: ?rest) with ([a; b; c] ++ rest).
  rewrite !switch_calls_app, !persist_calls_app, !runs_app, !map_app, Hs, Hk, Hw.
  now repeat split.
Qed.

(** X9. In an environment, that is where every command is started and
    answers and the watch is in place, a run of [main] makes as many
    writes of the default profile as passes over the terminals: one at the
    start and at most one more for each qualifying event. *)
Theorem main_accounting (env : Env) (events : list (inotify_event * Q))
    (tr : trace) :
  let d := emitted (main env events) tr in
  persist_calls d = switch_calls d /\
  (1 <= switch_calls d <= 1 + length (filter qualifying events))%nat.
Proof.
  cbv zeta.
  destruct (main_before_loop_facts env tr)
    as (profile & start & _ & _ & Hstart & Hs & Hk & _).
  destruct (notifier_loop_run env events
              {| _last_switch_time := 0; _last_profile := Some profile |}
              (tr ++ start))
    as (handler & d' & Hloop & Heq & Hle & _).
  pose proof (main_run env events tr profile start d' handler Hstart Hloop)
    as Hmain.
  rewrite (emitted_app _ _ _ _ Hmain).
  rewrite !switch_calls_app, !persist_calls_app, Hs, Hk, <- Heq.
  change (persist_calls [Print (String "010" "Shutting down...")]) with 0%nat.
  change (switch_calls [Print (String "010" "Shutting down...")]) with 0%nat.
  split; lia.
Qed.

(** X10. Whatever the desktop answers, a run of [main] writes only
    [Light.profile] or [Dark.profile] as the default, and the handler ends
    with one of the two profiles stored. *)
Theorem main_known_profiles (env : Env) (events : list (inotify_event * Q))
    (tr : trace) :
  let d := emitted (main env events) tr in
  Forall (known_persist env) (runs "kwriteconfig6" d) /\
  exists handler profile,
    fst (main env events tr) = Ok handler /\
    _last_profile handler = Some profile /\
    known_profile profile.
Proof.
  cbv zeta.
  destruct (main_before_loop_facts env tr)
    as (profile & start & _ & Hknown & Hstart & _ & _ & Hw).
  destruct (notifier_loop_run env events
              {| _last_switch_time := 0; _last_profile := Some profile |}
              (tr ++ start))
    as (handler & d' & Hloop & _ & _ & Hw' & Hp).
  pose proof (main_run env events tr profile start d' handler Hstart Hloop)
    as Hmain.
  rewrite (emitted_app _ _ _ _ Hmain), Hmain. split.
  - rewrite !runs_app.
    change (runs "kwriteconfig6" [Print (String "010" "Shutting down...")])
      with (@nil (list string * CompletedProcess)).
    rewrite app_nil_r. apply Forall_app. split; [|exact Hw'].
    exact (known_persist_single env profile _ Hknown Hw).
  - exists handler. cbn [fst _last_profile] in *.
    destruct Hp as [Hp | (p & Hk & Hp)].
    + exists profile. now repeat split.
    + exists p. now repeat split.
Qed.

(** ** A desktop that keeps its scheme *)

Lemma notifier_loop_steady (env : Env) (profile : string)
    (self : KdeGlobalsHandler) (events : list (inotify_event * Q)) :
  (forall tr, fst (get_target_profile env tr) = Ok profile) ->
  _last_profile self = Some profile ->
  forall tr,
  exists d,
    notifier_loop env self events tr = (Ok self, tr ++ d) /\
    switch_calls d = 0%nat /\ persist_calls d = 0%nat /\ printed d = [].
Proof.
  intros Hsteady Hlast.
  induction events as [|[ev now] rest IH]; intros tr.
  - exists []. rewrite app_nil_r. now repeat split.
  - rewrite notifier_loop_cons.
    assert (Hev : exists d1,
              process_event env self ev now tr = (Ok self, tr ++ d1) /\
              switch_calls d1 = 0%nat /\ persist_calls d1 = 0%nat /\
              printed d1 = []).
    { destruct (_should_process ev) eqn:Hq.
      - rewrite (process_event_qualifying env self ev now Hq).
        destruct (Qltb (now - _last_switch_time self) DEBOUNCE_SECONDS) eqn:Hg.
        + exists []. rewrite app_nil_r.
          split; [now apply debounced_switch_discard | now repeat split].
        + exists [Run kreadconfig_argv (respond env tr kreadconfig_argv)].
          split; [|now repeat split].
          apply (debounced_switch_suppress env self now tr profile Hg
                   (Hsteady tr)).
          now apply profile_eqb_true.
      - exists []. rewrite app_nil_r.
        split; [now apply process_event_ignored | now repeat split]. }
    destruct Hev as (d1 & Hrun & Hs & Hk & Hp). rewrite Hrun.
    destruct (IH (tr ++ d1)) as (d' & Hloop & Hs' & Hk' & Hp').
    exists (d1 ++ d'). rewrite Hloop, app_assoc.
    rewrite switch_calls_app, persist_calls_app, printed_app, Hs, Hs', Hk, Hk',
      Hp, Hp'.
    now repeat split.
Qed.

(** X11. When the desktop keeps resolving to the same profile, [main]
    reconciles at the start and never again, however many events arrive
    and whenever they arrive; the handler ends as it entered the loop. *)
Theorem main_with_steady_scheme (env : Env) (profile : string)
    (events : list (inotify_event * Q)) (tr : trace) :
  (forall tr', fst (get_target_profile env tr') = Ok profile) ->
  let d := emitted (main env events) tr in
  main env events tr =
    (Ok {| _last_switch_time := 0; _last_profile := Some profile |}, tr ++ d) /\
  switch_calls d = 1%nat /\
  persist_calls d = 1%nat.
Proof.
  intros Hsteady. cbv zeta.
  destruct (main_before_loop_facts env tr)
    as (profile' & start & Hres & _ & Hstart & Hs & Hk & _).
  assert (profile' = profile) by (rewrite Hsteady in Hres; congruence).
  subst profile'.
  destruct (notifier_loop_steady env profile
              {| _last_switch_time := 0; _last_profile := Some profile |}
              events Hsteady eq_refl (tr ++ start))
    as (d' & Hloop & Hs' & Hk' & _).
  pose proof (main_run env events tr profile start d' _ Hstart Hloop) as Hmain.
  rewrite (emitted_app _ _ _ _ Hmain). split; [exact Hmain|].
  rewrite !switch_calls_app, !persist_calls_app, Hs, Hk, Hs', Hk'.
  split; reflexivity.
Qed.

Lemma main_with_steady_scheme_witness :
  switch_calls
    (emitted (main env_one_session
                [(kdeglobals_written, 5); (kdeglobals_replaced, 9);
                 (kdeglobals_written, 20)]) []) = 1%nat.
Proof.
  assert (H : forall tr', fst (get_target_profile env_one_session tr')
                          = Ok "Dark"%string).
  { intros tr'. rewrite get_target_profile_run. reflexivity. }
  exact (proj1 (proj2 (main_with_steady_scheme env_one_session "Dark" _ [] H))).
Defined.

(** ** Addressing *)

Lemma str_of_int_injective (a b : Z) :
  Py.str_of_int a = Py.str_of_int b -> a = b.
Proof.
  unfold Py.str_of_int. intros H.
  assert (Hnn : forall z, Z.to_int z <> Decimal.Pos Decimal.Nil /\
                          Z.to_int z <> Decimal.Neg Decimal.Nil).
  { intros [|p|p]; simpl; split; try discriminate;
      intros [= Hp]; exact (Unsigned.to_uint_nonnil p Hp). }
  apply to_int_inj.
  assert (Hsome : Some (Z.to_int a) = Some (Z.to_int b)).
  { rewrite <- (NilZero.isi (Z.to_int a)), <- (NilZero.isi (Z.to_int b));
      try apply Hnn. now rewrite H. }
  now injection Hsome.
Qed.

(** X12. Different processes are addressed through different service names, and
    a [setProfile] command determines its process, session and profile. *)
Theorem setProfile_argv_injective (pid pid' : Z)
    (session session' profile profile' : string) :
  (service_of pid = service_of pid' -> pid = pid') /\
  (setProfile_argv pid session profile = setProfile_argv pid' session' profile' ->
   pid = pid' /\ session = session' /\ profile = profile').
Proof.
  assert (Hsvc : service_of pid = service_of pid' -> pid = pid').
  { unfold service_of. intros H. simpl in H.
    injection H as H. now apply str_of_int_injective. }
  split; [exact Hsvc|].
  unfold setProfile_argv. intros [= Hs Hsess Hprof].
  repeat split; auto using str_of_int_injective.
Qed.

Lemma setProfile_argv_injective_witness :
  service_of 4242 = "org.kde.konsole-4242"%string /\
  setProfile_argv 4242 "/Sessions/1" "Dark" =
    setProfile_argv 4242 "/Sessions/1" "Dark" /\
  (4242 = 4242)%Z.
Proof.
  split; [reflexivity|]. split; [reflexivity|].
  exact (proj1 (proj2 (setProfile_argv_injective 4242 4242 "/Sessions/1"
                         "/Sessions/1" "Dark" "Dark") eq_refl)).
Defined.

(** ** The handler as a state machine *)

Lemma profile_eqb_false (profile : string) (last : option string) :
  profile_eqb profile last = false -> last <> Some profile.
Proof.
  intros H Heq. apply profile_eqb_true in Heq. congruence.
Qed.

(** The two ways an event can end, told by the state: nothing is written
    and the state stays, or the event qualified at least a window after
    the last switch, its profile differs from the stored one, and that
    profile is written once. *)
Lemma process_event_transition (env : Env) (self : KdeGlobalsHandler)
    (ev : inotify_event) (now : Q) (tr : trace) :
  exists self' d,
    process_event env self ev now tr = (Ok self', tr ++ d) /\
    (self' = self /\ switch_calls d = 0%nat /\ runs "kwriteconfig6" d = [] \/
     _should_process ev = true /\
     DEBOUNCE_SECONDS <= now - _last_switch_time self /\
     exists profile,
       _last_profile self <> Some profile /\
       self' = {| _last_switch_time := now; _last_profile := Some profile |} /\
       switch_calls d = 1%nat /\
       map fst (runs "kwriteconfig6" d) = [kwriteconfig_argv env profile]).
Proof.
  destruct (_should_process ev) eqn:Hq.
  - rewrite (process_event_qualifying env self ev now Hq).
    pose proof (get_target_profile_run env tr) as Hres. cbv zeta in Hres.
    match type of Hres with _ = (Ok ?p, _) => set (profile := p) in * end.
    assert (Hfst : fst (get_target_profile env tr) = Ok profile)
      by now rewrite Hres.
    destruct (Qltb (now - _last_switch_time self) DEBOUNCE_SECONDS) eqn:Hgate.
    + exists self, []. rewrite app_nil_r.
      split; [now apply debounced_switch_discard|]. left. now repeat split.
    + destruct (profile_eqb profile (_last_profile self)) eqn:Hsame.
      * exists self, [Run kreadconfig_argv (respond env tr kreadconfig_argv)].
        split; [now apply (debounced_switch_suppress env self now tr profile)|].
        left. now repeat split.
      * pose proof (debounced_switch_apply env self now tr profile Hgate Hfst
                      Hsame) as Hrun.
        cbv zeta in Hrun. rewrite <- app_assoc in Hrun.
        eexists _, _. split; [exact Hrun|]. right.
        split; [reflexivity|]. split; [now apply Qltb_false|].
        exists profile. split; [now apply profile_eqb_false|].
        split; [reflexivity|].
        match goal with |- context [reconcile_effects env profile ?t] =>
          destruct (reconcile_effects_facts env profile t)
            as (Hs & _ & Hw & _) end.
        rewrite switch_calls_app, runs_app, map_app, Hs, Hw.
        now repeat split.
  - exists self, []. rewrite app_nil_r.
    split; [now apply process_event_ignored|]. left. now repeat split.
Qed.

(** X13. An event changes the state of the handler only if it names the watched
    file and comes at least a window after the last switch; the state then
    holds the time of the event and a profile other than the one stored
    before, and exactly one reconciliation has run. An event that leaves
    the state alone has run none. *)
Theorem state_changes_only_by_switch (env : Env) (self : KdeGlobalsHandler)
    (ev : inotify_event) (now : Q) (tr : trace) :
  let d := emitted (process_event env self ev now) tr in
  exists self',
    process_event env self ev now tr = (Ok self', tr ++ d) /\
    (self' = self -> switch_calls d = 0%nat) /\
    (self' <> self ->
       _should_process ev = true /\
       DEBOUNCE_SECONDS <= now - _last_switch_time self /\
       _last_switch_time self' = now /\
       _last_profile self' <> _last_profile self /\
       switch_calls d = 1%nat).
Proof.
  cbv zeta.
  destruct (process_event_transition env self ev now tr)
    as (self' & d & Hrun & Hcase).
  exists self'. rewrite (emitted_app _ _ _ _ Hrun). split; [exact Hrun|].
  destruct Hcase as [(-> & Hs & _) | (Hq & Hgate & p & Hne & -> & Hs & _)].
  - split; [now intros _ | intros Hdiff; now elim Hdiff].
  - split.
    + intros Heq. rewrite <- Heq in Hne. cbn in Hne. now elim Hne.
    + intros _. repeat split; trivial.
      cbn [_last_profile]. congruence.
Qed.

Lemma state_changes_only_by_switch_witness :
  let self := {| _last_switch_time := 2; _last_profile := Some "Light"%string |} in
  fst (process_event env_one_session self kdeglobals_written 3 []) =
    Ok {| _last_switch_time := 3; _last_profile := Some "Dark"%string |} /\
  DEBOUNCE_SECONDS <= 3 - 2 /\
  switch_calls (emitted (process_event env_one_session self kdeglobals_written 3)
                  []) = 1%nat.
Proof.
  intros self.
  destruct (state_changes_only_by_switch env_one_session self
              kdeglobals_written 3 []) as (self' & Hrun & _ & Hchange).
  assert (Hs : self' = {| _last_switch_time := 3;
                          _last_profile := Some "Dark"%string |}).
  { assert (H : fst (process_event env_one_session self kdeglobals_written 3 [])
                = Ok {| _last_switch_time := 3;
                        _last_profile := Some "Dark"%string |}) by reflexivity.
    rewrite Hrun in H. now injection H. }
  subst self'.
  destruct Hchange as (_ & Hgate & _ & _ & Hsw); [discriminate|].
  rewrite Hrun. now repeat split.
Defined.

Lemma last_cons {A : Type} (a d : A) (l : list A) :
  last (a :: l) d = last l a.
Proof.
  revert a d. induction l as [|b l IH]; intros a d; [reflexivity|].
  change (last (a :: b :: l) d) with (last (b :: l) d).
  now rewrite (IH b d), (IH b a).
Qed.

Lemma notifier_loop_changes (env : Env) (events : list (inotify_event * Q)) :
  forall (self : KdeGlobalsHandler) (tr : trace),
  exists self' d profiles,
    notifier_loop env self events tr = (Ok self', tr ++ d) /\
    map fst (runs "kwriteconfig6" d) = map (kwriteconfig_argv env) profiles /\
    changing (_last_profile self) profiles /\
    _last_profile self' = last (map Some profiles) (_last_profile self).
Proof.
  induction events as [|[ev now] rest IH]; intros self tr.
  - exists self, [], []. rewrite app_nil_r. now repeat split.
  - rewrite notifier_loop_cons.
    destruct (process_event_transition env self ev now tr)
      as (self1 & d1 & Hrun & Hcase).
    rewrite Hrun.
    destruct (IH self1 (tr ++ d1)) as (self' & d' & ps & Hloop & Hw & Hch & Hl).
    rewrite Hloop.
    destruct Hcase as [(-> & _ & Hr) | (_ & _ & p & Hne & -> & _ & Hr)].
    + exists self', (d1 ++ d'), ps. rewrite app_assoc, runs_app, map_app, Hr.
      now repeat split.
    + exists self', (d1 ++ d'), (p :: ps).
      rewrite app_assoc, runs_app, map_app, Hr, Hw.
      cbn [_last_profile] in Hch, Hl. cbn [map]. rewrite last_cons.
      now repeat split.
Qed.

(** X14. Over a whole run of [main] the profiles written as the default never
    repeat from one write to the next: the first is the profile of the
    start, each later one differs from its predecessor, and the handler
    ends with the last one stored. *)
Theorem main_profiles_change (env : Env) (events : list (inotify_event * Q))
    (tr : trace) :
  let d := emitted (main env events) tr in
  exists first rest handler,
    fst (get_target_profile env
           (tr ++ [Print "Konsole Theme Switcher starting..."])) = Ok first /\
    map fst (runs "kwriteconfig6" d) =
      map (kwriteconfig_argv env) (first :: rest) /\
    changing (Some first) rest /\
    fst (main env events tr) = Ok handler /\
    _last_profile handler = Some (last rest first).
Proof.
  cbv zeta.
  destruct (main_before_loop_facts env tr)
    as (first & start & Hres & _ & Hstart & _ & _ & Hw).
  destruct (notifier_loop_changes env events
              {| _last_switch_time := 0; _last_profile := Some first |}
              (tr ++ start))
    as (handler & d' & rest & Hloop & Hw' & Hch & Hl).
  pose proof (main_run env events tr first start d' handler Hstart Hloop)
    as Hmain.
  exists first, rest, handler.
  rewrite (emitted_app _ _ _ _ Hmain), Hmain.
  split; [exact Hres|]. split.
  { rewrite !runs_app, !map_app, Hw, Hw'. cbn. now rewrite app_nil_r. }
  split; [exact Hch|]. split; [reflexivity|].
  rewrite Hl. cbn [_last_profile]. clear.
  revert first. induction rest as [|p rest IH]; intros first; [reflexivity|].
  cbn [map]. rewrite !last_cons. apply IH.
Qed.
